(** * django-lockmin: the record locking mixin of [django_lockmin/admin.py]

    A shallow embedding of [AdminLockingMixin] and of the part of the Django
    ORM, request and message framework that its methods drive, followed by
    the properties of the locking operations. *)

From Stdlib Require Import ZArith Lia.
From stdpp Require Import base option list strings gmap pretty.

Open Scope string_scope.
Open Scope list_scope.
Open Scope Z_scope.

(** ** Python values and exceptions *)

(** [django.contrib.auth.models.User], as far as the mixin reads it.
    [user_perms] stands for what [User.has_perm] consults on a freshly
    loaded instance: the qualified names ["app_label.codename"] the stored
    user holds. *)
Record User := mkUser {
  user_id : Z;
  username : string;
  first_name : string;
  last_name : string;
  user_perms : list string
}.

#[global] Instance User_eq_dec : EqDecision User.
Proof. solve_decision. Defined.

(** The values a model attribute can hold: [None], an integer, a string,
    or the related [User] instance of a foreign key. *)
Inductive value :=
| VNone
| VInt (n : Z)
| VStr (s : string)
| VUser (u : User).

#[global] Instance value_eq_dec : EqDecision value.
Proof. solve_decision. Defined.

(** The exceptions the embedded code can raise. *)
Inductive exn :=
| AttributeError
| AssertionError
| TypeError
| ValueError (msg : string)
| FieldError
| DoesNotExist
| MultipleObjectsReturned
| DatabaseError
| PermissionDenied
| Http404.

#[global] Instance exn_eq_dec : EqDecision exn.
Proof. solve_decision. Defined.

Inductive result (A : Type) :=
| Ok (a : A)
| Raise (e : exn).
Arguments Ok {A} a.
Arguments Raise {A} e.

Definition is_ok {A} (r : result A) : bool :=
  match r with Ok _ => true | Raise _ => false end.

(** Python truthiness: [None], [0] and the empty string are false; a model
    instance defines neither [__bool__] nor [__len__] and is true. *)
Definition truthy (v : value) : bool :=
  match v with
  | VNone => false
  | VInt n => negb (n =? 0)
  | VStr s => negb (String.eqb s "")
  | VUser _ => true
  end.

(** [v.id]: only a [User] has the attribute. *)
Definition attr_id (v : value) : result Z :=
  match v with
  | VUser u => Ok (user_id u)
  | _ => Raise AttributeError
  end.

(** ** Models, instances and the store *)

Inductive ModelRef :=
| UserModel
| OtherModel (name : string).

#[global] Instance ModelRef_eq_dec : EqDecision ModelRef.
Proof. solve_decision. Defined.

(** What [getattr(model, name)] finds on a model class: the descriptor of a
    concrete field, whose [field.related_model] is [None] unless the field
    is a relation, or some other attribute (a manager, a method, [pk])
    that has no [field]. *)
Inductive class_attr :=
| AField (related_model : option ModelRef)
| AOther.

Record ModelClass := mkModel {
  app_label : string;
  model_name : string;
  class_name : string;
  class_attrs : gmap string class_attr
}.

(** A model instance: its primary key and its field attributes. *)
Record Instance := mkInstance {
  pk : Z;
  attrs : gmap string value
}.

#[global] Instance Instance_eq_dec : EqDecision Instance.
Proof. solve_decision. Defined.

Record ContentType := mkContentType {
  ct_app_label : string;
  ct_model : string
}.

#[global] Instance ContentType_eq_dec : EqDecision ContentType.
Proof. solve_decision. Defined.

(** [django.contrib.auth.models.Permission]. *)
Record Permission := mkPermission {
  perm_codename : string;
  perm_name : string;
  perm_content_type : ContentType
}.

Record Store := mkStore {
  table : list Instance;
  auth_user : list User;
  auth_permission : list Permission;
  content_types : list ContentType
}.

(** ** Querysets

    A queryset is a lazy description of rows; it is evaluated against the
    table each time it is iterated, counted or fetched. *)
Inductive QuerySet :=
| Objects
| Filter (p : Instance → bool) (q : QuerySet)
| Union (a b : QuerySet).

(** SQL [UNION] returns distinct rows. *)
Fixpoint rows (t : list Instance) (q : QuerySet) : list Instance :=
  match q with
  | Objects => t
  | Filter p q' => List.filter p (rows t q')
  | Union a b => remove_dups (rows t a ++ rows t b)
  end.

Definition count (t : list Instance) (q : QuerySet) : Z :=
  Z.of_nat (length (rows t q)).

Definition get (t : list Instance) (q : QuerySet) : result Instance :=
  match rows t q with
  | [] => Raise DoesNotExist
  | [r] => Ok r
  | _ :: _ :: _ => Raise MultipleObjectsReturned
  end.

(** Lookups: [pk__in=sel] (the rows an admin action is run on), [id=n], and
    the keyword [name=n] on a foreign key, which compares the related row's
    id. *)
Definition pk_in (sel : list Z) (r : Instance) : bool :=
  bool_decide (pk r ∈ sel).

Definition id_exact (n : Z) (r : Instance) : bool := pk r =? n.

Definition fk_exact (name : string) (n : Z) (r : Instance) : bool :=
  match attrs r !! name with
  | Some (VUser u) => user_id u =? n
  | _ => false
  end.

Definition is_field (m : ModelClass) (name : string) : bool :=
  match class_attrs m !! name with
  | Some (AField _) => true
  | _ => false
  end.

(** [model.objects.filter] by the keyword [name] with value [n]; an unknown
    field name is refused when the filter is built. *)
Definition filter_fk (m : ModelClass) (name : string) (n : Z) : result QuerySet :=
  if is_field m name then Ok (Filter (fk_exact name n) Objects)
  else Raise FieldError.

(** The column [values_list(key, flat=True)] selects from a row: the primary
    key for ["pk"] and ["id"], the related id for a foreign key. *)
Definition column (m : ModelClass) (key : string) (r : Instance) : result value :=
  if bool_decide (key = "pk") || bool_decide (key = "id") then Ok (VInt (pk r))
  else if is_field m key then
    match attrs r !! key with
    | Some (VUser u) => Ok (VInt (user_id u))
    | Some v => Ok v
    | None => Ok VNone
    end
  else Raise FieldError.

Fixpoint mapM {A B} (f : A → result B) (l : list A) : result (list B) :=
  match l with
  | [] => Ok []
  | x :: l' =>
      match f x with
      | Raise e => Raise e
      | Ok y => match mapM f l' with
                | Raise e => Raise e
                | Ok ys => Ok (y :: ys)
                end
      end
  end.

Definition values_list (m : ModelClass) (t : list Instance) (q : QuerySet)
    (key : string) : result (list value) :=
  mapM (column m key) (rows t q).

(** [sep.join(items)]: every item has to be a [str]. *)
Fixpoint join (sep : string) (items : list value) : result string :=
  match items with
  | [] => Ok ""
  | VStr s :: rest =>
      match rest with
      | [] => Ok s
      | _ => match join sep rest with
             | Ok t => Ok (s +:+ sep +:+ t)
             | Raise e => Raise e
             end
      end
  | _ :: _ => Raise TypeError
  end.

(** ** Requests, the world and its monad *)

Inductive level := INFO | SUCCESS | WARNING | ERROR.

#[global] Instance level_eq_dec : EqDecision level.
Proof. solve_decision. Defined.

Record HttpRequest := mkRequest {
  request_user : option User
}.

(** Everything the methods can change: the database, the messages and the
    session of the request, the log, and the attributes the mixin sets on its
    own action functions. *)
Record World := mkWorld {
  db : Store;
  messages : list (level * string);
  message_seen : bool;
  log : list string;
  unlock_short_description : option string;
  lock_short_description : option string;
  unlock_allowed_permissions : option (list string)
}.

Definition M (A : Type) : Type := World → World * result A.

Definition ret {A} (a : A) : M A := λ w, (w, Ok a).
Definition raise {A} (e : exn) : M A := λ w, (w, Raise e).
Definition bind {A B} (c : M A) (k : A → M B) : M B :=
  λ w, match c w with
       | (w', Ok a) => k a w'
       | (w', Raise e) => (w', Raise e)
       end.
Definition lift {A} (r : result A) : M A := λ w, (w, r).
Definition read {A} (f : World → A) : M A := λ w, (w, Ok (f w)).

Definition bindR {A B} (r : result A) (k : A → result B) : result B :=
  match r with
  | Ok a => k a
  | Raise e => Raise e
  end.

Notation "'let*' x := c 'in' k" := (bind c (λ x, k))
  (at level 10, x name, c at level 100, k at level 200).
Notation "'run' c 'in' k" := (bind c (λ _, k))
  (at level 10, c at level 100, k at level 200).
Notation "'let?' x := r 'in' k" := (bindR r (λ x, k))
  (at level 10, x name, r at level 100, k at level 200).

Definition set_table (t : list Instance) (s : Store) : Store :=
  mkStore t (auth_user s) (auth_permission s) (content_types s).

Definition set_db (s : Store) (w : World) : World :=
  mkWorld s (messages w) (message_seen w) (log w)
    (unlock_short_description w) (lock_short_description w)
    (unlock_allowed_permissions w).

(** [self.message_user(request, message, level)]. *)
Definition message_user (message : string) (lv : level) : M unit :=
  λ w, (mkWorld (db w) (messages w ++ [(lv, message)]) (message_seen w) (log w)
          (unlock_short_description w) (lock_short_description w)
          (unlock_allowed_permissions w), Ok tt).

Definition log_warning (line : string) : M unit :=
  λ w, (mkWorld (db w) (messages w) (message_seen w) (log w ++ [line])
          (unlock_short_description w) (lock_short_description w)
          (unlock_allowed_permissions w), Ok tt).

Definition getattr (obj : Instance) (name : string) : result value :=
  match attrs obj !! name with
  | Some v => Ok v
  | None => Raise AttributeError
  end.

Definition setattr (obj : Instance) (name : string) (v : value) : Instance :=
  mkInstance (pk obj) (<[name := v]> (attrs obj)).

(** [obj.save(update_fields=[f])]: refused unless [f] is a concrete field of
    the model; otherwise an [UPDATE] of that one column of the row with the
    instance's primary key. *)
Definition write_column (f : string) (v : value) (key : Z) (r : Instance) : Instance :=
  if pk r =? key then setattr r f v else r.

Definition save (m : ModelClass) (obj : Instance) (f : string) : M unit :=
  if is_field m f then
    let* v := lift (getattr obj f) in
    λ w,
      if existsb (id_exact (pk obj)) (table (db w)) then
        (set_db (set_table (map (write_column f v (pk obj)) (table (db w))) (db w)) w,
         Ok tt)
      else (w, Raise DatabaseError)
  else
    raise (ValueError
      ("The following fields do not exist in this model, are m2m fields, or are non-concrete fields: " +:+ f)).

(** ** The mixin and its configuration *)

(** Modelled from the spec: [django_lockmin.typing.PermissionType], the type
    of [unlock_record_action_permission], is a named permission with a
    [codename] and a [description]; an instance is always true in a
    condition, only [None] is false. *)
Record PermissionType := mkPermissionType {
  codename : string;
  description : string
}.

(** An instance [self] of (a subclass of) [AdminLockingMixin]: the model it
    is registered for, the class attributes a subclass may override, and the
    [list_display] and [actions] of [ModelAdmin]. *)
Record AdminLockingMixin := mkAdmin {
  model : ModelClass;
  allow_view_permissions : bool;
  model_reference_key : string;
  max_records_lockable : Z;
  max_records_warning_msg : string;
  locked_error_msg : string;
  user_field : string;
  locking_help : option string;
  lock_record_action_name : string;
  unlock_record_action_name : string;
  unlock_record_action_permission : option PermissionType;
  list_display : list string;
  actions : list string
}.

(** The class body is evaluated once: the f-string reads the class-level
    [max_records_lockable] that the line before it bound. *)
Module ClassBody.
Definition allow_view_permissions : bool := false.
Definition model_reference_key : string := "pk".
Definition max_records_lockable : Z := 1.
Definition max_records_warning_msg : string :=
  "You can only lock upto " +:+ pretty max_records_lockable +:+ " record(s)".
Definition locked_error_msg : string :=
  "This record is locked. Please try again later.".
Definition user_field : string := "user".
Definition locking_help : option string := None.
Definition lock_record_action_name : string := "Lock Record".
Definition unlock_record_action_name : string := "Unlock Record".
Definition unlock_record_action_permission : option PermissionType :=
  Some (mkPermissionType "unlock" "Can unlock a record.").
End ClassBody.

Definition LOCKED_BY_COLUMN : string := "is_locked_by".
Definition UNLOCK_RECORD : string := "unlock_record".
Definition LOCK_RECORD : string := "lock_record".

(** The mixin with no attribute overridden, registered for model [m];
    [list_display] and [actions] are those of [ModelAdmin]. *)
Definition default_admin (m : ModelClass) : AdminLockingMixin :=
  {| model := m;
     allow_view_permissions := ClassBody.allow_view_permissions;
     model_reference_key := ClassBody.model_reference_key;
     max_records_lockable := ClassBody.max_records_lockable;
     max_records_warning_msg := ClassBody.max_records_warning_msg;
     locked_error_msg := ClassBody.locked_error_msg;
     user_field := ClassBody.user_field;
     locking_help := ClassBody.locking_help;
     lock_record_action_name := ClassBody.lock_record_action_name;
     unlock_record_action_name := ClassBody.unlock_record_action_name;
     unlock_record_action_permission := ClassBody.unlock_record_action_permission;
     list_display := ["__str__"];
     actions := [] |}.

(** A subclass that overrides one attribute. *)
Definition with_max_records_lockable (n : Z) (self : AdminLockingMixin) :=
  mkAdmin (model self) (allow_view_permissions self) (model_reference_key self)
    n (max_records_warning_msg self) (locked_error_msg self) (user_field self)
    (locking_help self) (lock_record_action_name self)
    (unlock_record_action_name self) (unlock_record_action_permission self)
    (list_display self) (actions self).

Definition with_user_field (f : string) (self : AdminLockingMixin) :=
  mkAdmin (model self) (allow_view_permissions self) (model_reference_key self)
    (max_records_lockable self) (max_records_warning_msg self)
    (locked_error_msg self) f
    (locking_help self) (lock_record_action_name self)
    (unlock_record_action_name self) (unlock_record_action_permission self)
    (list_display self) (actions self).

Definition with_model_reference_key (k : string) (self : AdminLockingMixin) :=
  mkAdmin (model self) (allow_view_permissions self) k
    (max_records_lockable self) (max_records_warning_msg self)
    (locked_error_msg self) (user_field self)
    (locking_help self) (lock_record_action_name self)
    (unlock_record_action_name self) (unlock_record_action_permission self)
    (list_display self) (actions self).

Definition with_columns (ld acts : list string) (self : AdminLockingMixin) :=
  mkAdmin (model self) (allow_view_permissions self) (model_reference_key self)
    (max_records_lockable self) (max_records_warning_msg self)
    (locked_error_msg self) (user_field self)
    (locking_help self) (lock_record_action_name self)
    (unlock_record_action_name self) (unlock_record_action_permission self)
    ld acts.

(** [django.contrib.auth.get_permission_codename]. *)
Definition get_permission_codename (action : string) (opts : ModelClass) : string :=
  action +:+ "_" +:+ model_name opts.

(** The tuple registration of [__init__]: [t] if it already has [x], the
    one-element tuple if [t] is empty, [t + (x,)] otherwise. *)
Definition register (x : string) (t : list string) : list string :=
  match t with
  | [] => [x]
  | _ => if bool_decide (x ∈ t) then t else t ++ [x]
  end.

Definition _validate_user_field (self : AdminLockingMixin) : result unit :=
  match class_attrs (model self) !! user_field self with
  | None =>
      Raise (ValueError
        ("The `user_field` was set to `" +:+ user_field self +:+
         "` but that's not a model field of `" +:+ class_name (model self) +:+ "`"))
  | Some AOther => Raise AttributeError
  | Some (AField rel) =>
      if bool_decide (rel ≠ Some UserModel) then
        Raise (ValueError
          ("The `user_field` was set to `" +:+ user_field self +:+
           "` but that isn't a foreign key to the User table."))
      else Ok tt
  end.

Definition set_short_descriptions (w : World) (unlock lock : string) : World :=
  mkWorld (db w) (messages w) (message_seen w) (log w)
    (Some unlock) (Some lock) (unlock_allowed_permissions w).

Definition __init__ (self : AdminLockingMixin) : M AdminLockingMixin :=
  let list_display := register LOCKED_BY_COLUMN (list_display self) in
  let actions := register UNLOCK_RECORD (actions self) in
  let actions := register LOCK_RECORD actions in
  let self := with_columns list_display actions self in
  λ w,
    (set_short_descriptions w (unlock_record_action_name self)
       (lock_record_action_name self),
     let? _ := _validate_user_field self in Ok self).

(** [reverse] of the admin change view of [obj]. *)
Definition _get_changeview_url (self : AdminLockingMixin) (obj : Instance) : string :=
  "/admin/" +:+ app_label (model self) +:+ "/" +:+ model_name (model self)
    +:+ "/" +:+ pretty (pk obj) +:+ "/change/".

(** ** The locking operations *)

Definition is_locked (self : AdminLockingMixin) (request : HttpRequest)
    (obj : Instance) : result bool :=
  let? user := getattr obj (user_field self) in
  match request_user request with
  | None => Raise AssertionError
  | Some ru =>
      let? uid := attr_id user in
      Ok (negb (uid =? user_id ru))
  end.

(** The loop of [unlock_record] over the rows the queryset held when the
    loop started. *)
Fixpoint unlock_each (self : AdminLockingMixin) (objs : list Instance) : M unit :=
  match objs with
  | [] => ret tt
  | manual_order_attempt :: rest =>
      let manual_order_attempt := setattr manual_order_attempt "user" VNone in
      run save (model self) manual_order_attempt "user" in
      unlock_each self rest
  end.

Definition unlock_record (self : AdminLockingMixin) (request : HttpRequest)
    (queryset : QuerySet) : M unit :=
  let* objs := read (λ w, rows (table (db w)) queryset) in
  run unlock_each self objs in
  let* model_references :=
    (λ w, (w, values_list (model self) (table (db w)) queryset
                (model_reference_key self))) in
  let* model_references_str := lift (join ", " model_references) in
  run message_user
    ("Successfully unlocked the following records: " +:+ model_references_str)
    SUCCESS in
  ret tt.

Inductive Response :=
| ChangeForm (object_id : Z) (editable : bool)
| ChangeList
| HttpResponseRedirect (url : string).

Definition the_user (request : HttpRequest) : result User :=
  match request_user request with
  | Some u => Ok u
  | None => Raise AttributeError
  end.

Definition lock_record (self : AdminLockingMixin) (request : HttpRequest)
    (queryset : QuerySet) : M Response :=
  let* ru := lift (the_user request) in
  let* held := lift (filter_fk (model self) (user_field self) (user_id ru)) in
  let all_records_for_user := Union queryset held in
  let* n := read (λ w, count (table (db w)) all_records_for_user) in
  run (if n >? max_records_lockable self
       then message_user (max_records_warning_msg self) ERROR
       else ret tt) in
  let* record := (λ w, (w, get (table (db w)) queryset)) in
  ret (HttpResponseRedirect (_get_changeview_url self record)).

Definition is_locked_by (self : AdminLockingMixin) (obj : Instance) : M string :=
  let* user := lift (getattr obj (user_field self)) in
  match user with
  | VUser u =>
      if negb (truthy (VStr (first_name u))) && negb (truthy (VStr (last_name u)))
      then
        run log_warning
          ("The user `" +:+ username u +:+
           "` has no first or last name set. Please set their user " +:+
           "details for improved visibility of who's locked a manual order.") in
        ret (username u)
      else ret (first_name u +:+ " " +:+ last_name u)
  | v => if truthy v then raise AttributeError else ret "-"
  end.

Definition has_view_permission (self : AdminLockingMixin) (request : HttpRequest)
    (obj : option Instance) : bool := true.

Definition has_change_permission (self : AdminLockingMixin) (request : HttpRequest)
    (obj : option Instance) : result bool :=
  match obj with
  | None => Ok true
  | Some o => let? locked := is_locked self request o in Ok (negb locked)
  end.

(** [get_object_or_404(User, pk=n)]. *)
Definition get_user_or_404 (users : list User) (n : Z) : result User :=
  match List.filter (λ u, user_id u =? n) users with
  | [] => Raise Http404
  | [u] => Ok u
  | _ :: _ :: _ => Raise MultipleObjectsReturned
  end.

(** [user.has_perm(name)] on an instance that was just loaded. *)
Definition has_perm (u : User) (name : string) : bool :=
  bool_decide (name ∈ user_perms u).

Definition qualified_name (self : AdminLockingMixin) (p : PermissionType) : string :=
  app_label (model self) +:+ "." +:+ get_permission_codename (codename p) (model self).

Definition has_unlock_permission (self : AdminLockingMixin) (request : HttpRequest)
    (s : Store) : result bool :=
  match unlock_record_action_permission self with
  | None => Ok true
  | Some p =>
      let? ru := the_user request in
      let? user := get_user_or_404 (auth_user s) (user_id ru) in
      Ok (has_perm user (qualified_name self p))
  end.

(** [ContentType.objects.get_for_model]: the row of the model, created when
    it is not there yet. *)
Definition get_for_model (m : ModelClass) : M ContentType :=
  let ct := mkContentType (app_label m) (model_name m) in
  λ w,
    if bool_decide (ct ∈ content_types (db w)) then (w, Ok ct)
    else (set_db (mkStore (table (db w)) (auth_user (db w))
                    (auth_permission (db w)) (content_types (db w) ++ [ct])) w,
          Ok ct).

Definition codename_is (c : string) (p : Permission) : bool :=
  String.eqb (perm_codename p) c.

Definition create_permission (p : Permission) : M unit :=
  λ w, (set_db (mkStore (table (db w)) (auth_user (db w))
                  (auth_permission (db w) ++ [p]) (content_types (db w))) w,
        Ok tt).

Definition set_allowed_permissions (l : list string) : M unit :=
  λ w, (mkWorld (db w) (messages w) (message_seen w) (log w)
          (unlock_short_description w) (lock_short_description w) (Some l),
        Ok tt).

Definition _set_unlock_permission (self : AdminLockingMixin) : M unit :=
  match unlock_record_action_permission self with
  | None => ret tt
  | Some p =>
      let full_codename := get_permission_codename (codename p) (model self) in
      let* n := read (λ w, length (List.filter (codename_is full_codename)
                                     (auth_permission (db w)))) in
      run (if (n =? 0)%nat then
             let* content_type := get_for_model (model self) in
             create_permission (mkPermission full_codename (description p) content_type)
           else ret tt) in
      set_allowed_permissions [codename p]
  end.

(** [perms] is what [ModelAdmin.get_model_perms] returned. *)
Definition get_model_perms (self : AdminLockingMixin) (request : HttpRequest)
    (perms : gmap string bool) : M (gmap string bool) :=
  match unlock_record_action_permission self with
  | None => ret perms
  | Some p =>
      run _set_unlock_permission self in
      let* allowed := (λ w, (w, has_unlock_permission self request (db w))) in
      ret (<[codename p := allowed]> perms)
  end.

(** [ModelAdmin.change_view], as far as its outcome depends on the overrides
    of the mixin: it loads the object, refuses it when neither viewing nor
    changing is permitted, and renders the form editable iff
    [has_change_permission] grants the change, read-only otherwise. *)
Definition super_change_view (self : AdminLockingMixin) (request : HttpRequest)
    (object_id : Z) : M Response :=
  let* obj := (λ w, (w, get (table (db w)) (Filter (id_exact object_id) Objects))) in
  let* allowed :=
    lift (if has_view_permission self request (Some obj) then Ok true
          else has_change_permission self request (Some obj)) in
  if negb allowed then raise PermissionDenied
  else
    let* editable := lift (has_change_permission self request (Some obj)) in
    ret (ChangeForm object_id editable).

Definition change_view (self : AdminLockingMixin) (request : HttpRequest)
    (object_id : Z) : M Response :=
  let* model_ := (λ w, (w, get (table (db w)) (Filter (id_exact object_id) Objects))) in
  let* user := lift (getattr model_ (user_field self)) in
  if negb (truthy user) then
    let model_ := setattr model_ (user_field self)
                   (from_option VUser VNone (request_user request)) in
    run save (model self) model_ (user_field self) in
    super_change_view self request object_id
  else
    let* locked := lift (is_locked self request model_) in
    if locked then
      run message_user (locked_error_msg self) ERROR in
      if negb (allow_view_permissions self)
      then ret (HttpResponseRedirect "../../")
      else super_change_view self request object_id
    else super_change_view self request object_id.

Definition set_message_seen (b : bool) : M unit :=
  λ w, (mkWorld (db w) (messages w) b (log w)
          (unlock_short_description w) (lock_short_description w)
          (unlock_allowed_permissions w), Ok tt).

Definition changelist_view (self : AdminLockingMixin) (request : HttpRequest)
    : M Response :=
  let* seen := read message_seen in
  run (match locking_help self with
       | Some help =>
           if truthy (VStr help) && negb seen then
             run message_user help INFO in set_message_seen true
           else ret tt
       | None => ret tt
       end) in
  ret ChangeList.

(** ** A small shop used in the examples

    An [Order] model whose [user] field is the foreign key of the lock, a
    second model that keeps its owner in [user] and its lock in
    [locked_by], and two users. *)
Module Fixtures.
Definition alice : User := mkUser 1 "alice" "Alice" "Archer" ["shop.unlock_order"].
Definition bob : User := mkUser 2 "bob" "" "" [].

Definition order_model : ModelClass :=
  mkModel "shop" "order" "Order"
    (<["user" := AField (Some UserModel)]>
     (<["reference" := AField None]> (<["objects" := AOther]> ∅))).

Definition order (k : Z) (holder : value) (ref : string) : Instance :=
  mkInstance k (<["user" := holder]> (<["reference" := VStr ref]> ∅)).

Definition store0 : Store :=
  mkStore [order 1 (VUser alice) "R1"; order 2 VNone "R2"; order 3 VNone "R3"]
    [alice; bob] [] [].

Definition world_of (s : Store) : World := mkWorld s [] false [] None None None.
Definition world0 : World := world_of store0.

Definition store1 : Store :=
  mkStore [order 1 (VUser alice) "R1"; order 2 (VUser alice) "R2"; order 3 VNone "R3"]
    [alice; bob] [] [].

Definition as_alice : HttpRequest := mkRequest (Some alice).
Definition as_bob : HttpRequest := mkRequest (Some bob).

Definition ticket_model : ModelClass :=
  mkModel "desk" "ticket" "Ticket"
    (<["user" := AField (Some UserModel)]>
     (<["locked_by" := AField (Some UserModel)]>
      (<["reference" := AField None]> ∅))).

Definition ticket (k : Z) (owner holder : value) (ref : string) : Instance :=
  mkInstance k
    (<["user" := owner]> (<["locked_by" := holder]> (<["reference" := VStr ref]> ∅))).

Definition desk0 : World :=
  world_of (mkStore [ticket 7 (VUser alice) (VUser bob) "T7"] [alice; bob] [] []).

Definition ticket_admin : AdminLockingMixin :=
  with_model_reference_key "reference"
    (with_user_field "locked_by" (default_admin ticket_model)).

Definition parcel_model : ModelClass :=
  mkModel "depot" "parcel" "Parcel"
    (<["locked_by" := AField (Some UserModel)]>
     (<["reference" := AField None]> ∅)).

Definition parcel (k : Z) (holder : value) (ref : string) : Instance :=
  mkInstance k (<["locked_by" := holder]> (<["reference" := VStr ref]> ∅)).

Definition depot0 : World :=
  world_of (mkStore [parcel 5 (VUser alice) "P5"] [alice; bob] [] []).

Definition parcel_admin : AdminLockingMixin :=
  with_model_reference_key "reference"
    (with_user_field "locked_by" (default_admin parcel_model)).
End Fixtures.

(** ** Spec-side vocabulary *)

(** The three lock states of a record as an actor sees it. *)
Inductive LockState := Unheld | HeldBySelf | HeldByOther.

Definition lock_state (self : AdminLockingMixin) (actor : User) (obj : Instance)
    : option LockState :=
  match attrs obj !! user_field self with
  | Some VNone => Some Unheld
  | Some (VUser h) =>
      Some (if user_id h =? user_id actor then HeldBySelf else HeldByOther)
  | _ => None
  end.

(** The holder of a row after the actor acquired it. *)
Definition acquire (self : AdminLockingMixin) (actor : User) (object_id : Z)
    (w : World) : World :=
  set_db (set_table (map (write_column (user_field self) (VUser actor) object_id)
                       (table (db w))) (db w)) w.

(** The records the actor holds, and the cardinality of their union with the
    target records, both as sets of primary keys. *)
Definition held_by (self : AdminLockingMixin) (actor : User) (t : list Instance)
    : list Instance :=
  List.filter (fk_exact (user_field self) (user_id actor)) t.

Definition union_cardinality (self : AdminLockingMixin) (actor : User)
    (t : list Instance) (queryset : QuerySet) : Z :=
  Z.of_nat (size ((list_to_set (pk <$> rows t queryset) : gset Z)
                    ∪ list_to_set (pk <$> held_by self actor t))).

(** [n] calls in a row. *)
Fixpoint times (n : nat) (c : M unit) : M unit :=
  match n with
  | O => ret tt
  | S k => run c in times k c
  end.

Definition unlock_permissions (self : AdminLockingMixin) (p : PermissionType)
    (w : World) : list Permission :=
  List.filter (codename_is (get_permission_codename (codename p) (model self)))
    (auth_permission (db w)).

(** The queryset [lock_record] counts. *)
Definition all_records_for_user (self : AdminLockingMixin) (actor : User)
    (queryset : QuerySet) : QuerySet :=
  Union queryset (Filter (fk_exact (user_field self) (user_id actor)) Objects).

(** The permission row the first call of [_set_unlock_permission] creates. *)
Definition unlock_permission_row (self : AdminLockingMixin) (p : PermissionType)
    : Permission :=
  mkPermission (get_permission_codename (codename p) (model self))
    (description p)
    (mkContentType (app_label (model self)) (model_name (model self))).

(** Frames: [same_but f r r'] says that row [r'] is row [r] up to the
    attribute [f]; a computation [writes_only f] when every run leaves each
    row of the table the same but for [f], and is [reads_only] when every
    run leaves the whole database as it was. *)
Definition same_but (f : string) (r r' : Instance) : Prop :=
  pk r' = pk r ∧ ∀ g, g ≠ f → attrs r' !! g = attrs r !! g.

Definition writes_only {A} (f : string) (c : M A) : Prop :=
  ∀ w, Forall2 (same_but f) (table (db w)) (table (db (c w).1)).

Definition reads_only {A} (c : M A) : Prop :=
  ∀ w, db (c w).1 = db w.

(** What [unlock_record] leaves of a row when the rows with primary key in
    [sel] were selected: the attribute ["user"] of a selected row is [None]. *)
Definition clear_selected (sel : list Z) (r : Instance) : Instance :=
  if bool_decide (pk r ∈ sel) then setattr r "user" VNone else r.

Definition with_table (t : list Instance) (w : World) : World :=
  set_db (set_table t (db w)) w.

(** ** Basic facts *)

Section Basics.
Context (self : AdminLockingMixin).

Lemma validated_is_field :
  _validate_user_field self = Ok tt →
  is_field (model self) (user_field self) = true.
Proof.
  unfold _validate_user_field, is_field.
  destruct (class_attrs (model self) !! user_field self) as [[rel|]|]; done.
Qed.

Lemma is_locked_held request obj h a :
  attrs obj !! user_field self = Some (VUser h) →
  request_user request = Some a →
  is_locked self request obj = Ok (negb (user_id h =? user_id a)).
Proof.
  intros Hh Ha. unfold is_locked, getattr. rewrite Hh. simpl. by rewrite Ha.
Qed.

Lemma is_locked_unheld request obj a :
  attrs obj !! user_field self = Some VNone →
  request_user request = Some a →
  is_locked self request obj = Raise AttributeError.
Proof.
  intros Hh Ha. unfold is_locked, getattr. rewrite Hh. simpl. by rewrite Ha.
Qed.

Lemma filter_id_write f v k t :
  List.filter (id_exact k) (map (write_column f v k) t)
  = map (λ r, setattr r f v) (List.filter (id_exact k) t).
Proof.
  induction t as [|r t IH]; [done|].
  assert (id_exact k (write_column f v k r) = id_exact k r) as Hk.
  { unfold write_column, id_exact. destruct (pk r =? k) eqn:E; simpl; by rewrite ?E. }
  simpl. rewrite Hk. destruct (id_exact k r) eqn:E; simpl; rewrite IH; [|done].
  f_equal. unfold write_column. unfold id_exact in E. by rewrite E.
Qed.

Lemma get_id_rows t k obj :
  get t (Filter (id_exact k) Objects) = Ok obj →
  List.filter (id_exact k) t = [obj].
Proof.
  unfold get. simpl.
  destruct (List.filter (id_exact k) t) as [|x [|y l]]; [done| |done].
  by intros [= ->].
Qed.

Lemma get_id_pk t k obj :
  get t (Filter (id_exact k) Objects) = Ok obj → pk obj = k.
Proof.
  intros H. apply get_id_rows in H.
  assert (In obj (List.filter (id_exact k) t)) as Hin by (rewrite H; by left).
  apply filter_In in Hin as [_ Hk]. unfold id_exact in Hk. lia.
Qed.

Lemma get_id_exists t k obj :
  get t (Filter (id_exact k) Objects) = Ok obj →
  existsb (id_exact k) t = true.
Proof.
  intros H. apply existsb_exists. exists obj.
  assert (In obj (List.filter (id_exact k) t)) as Hin.
  { rewrite (get_id_rows _ _ _ H). by left. }
  by apply filter_In in Hin.
Qed.
End Basics.

(** ** [is_locked] *)

(** C1. The claim asks [is_locked] to answer [False] on a record without a
    holder. On such a record ([R2] of the shop, asked by bob) the body reads
    [user.id] of [None] and raises [AttributeError]; so does
    [has_change_permission], which passes the record on unguarded. *)
Theorem is_locked_unheld_raises :
  is_locked (default_admin Fixtures.order_model) Fixtures.as_bob
    (Fixtures.order 2 VNone "R2") = Raise AttributeError
  ∧ has_change_permission (default_admin Fixtures.order_model) Fixtures.as_bob
      (Some (Fixtures.order 2 VNone "R2")) = Raise AttributeError.
Proof. split; reflexivity. Qed.

(** On a record that has a holder the answer is the one the claim gives:
    locked iff the holder's id differs from the actor's. *)
Lemma is_locked_true_iff self request obj h a :
  attrs obj !! user_field self = Some (VUser h) →
  request_user request = Some a →
  is_locked self request obj = Ok true ↔ user_id h ≠ user_id a.
Proof.
  intros Hh Ha. rewrite (is_locked_held self request obj h a Hh Ha).
  destruct (Z.eqb_spec (user_id h) (user_id a)); simpl; split; intros; congruence.
Qed.

(** ** [change_view] *)

Section ChangeView.
Context (self : AdminLockingMixin) (request : HttpRequest) (actor : User).
Context (object_id : Z) (obj : Instance) (w : World).
Hypothesis Hvalid : _validate_user_field self = Ok tt.
Hypothesis Hactor : request_user request = Some actor.
Hypothesis Hget :
  get (table (db w)) (Filter (id_exact object_id) Objects) = Ok obj.

Lemma super_change_view_held h :
  attrs obj !! user_field self = Some (VUser h) →
  super_change_view self request object_id w
  = (w, Ok (ChangeForm object_id (user_id h =? user_id actor))).
Proof.
  intros Hh. unfold super_change_view, bind, lift, ret. rewrite Hget. simpl.
  rewrite (is_locked_held self request obj h actor Hh Hactor). simpl.
  by rewrite negb_involutive.
Qed.

Lemma get_after_acquire :
  get (table (db (acquire self actor object_id w)))
    (Filter (id_exact object_id) Objects)
  = Ok (setattr obj (user_field self) (VUser actor)).
Proof.
  unfold get, acquire. simpl. rewrite filter_id_write.
  by rewrite (get_id_rows _ _ _ Hget).
Qed.

Lemma change_view_unheld :
  attrs obj !! user_field self = Some VNone →
  change_view self request object_id w
  = (acquire self actor object_id w, Ok (ChangeForm object_id true)).
Proof.
  intros Hh. unfold change_view, bind, lift. rewrite Hget.
  unfold getattr at 1. rewrite Hh. simpl. rewrite Hactor. simpl.
  unfold save, bind, lift. rewrite (validated_is_field self Hvalid).
  unfold getattr. simpl. rewrite lookup_insert_eq.
  rewrite (get_id_pk _ _ _ Hget). rewrite (get_id_exists _ _ _ Hget).
  fold (acquire self actor object_id w).
  unfold super_change_view, bind, lift, ret. rewrite get_after_acquire. simpl.
  unfold is_locked, getattr. simpl. rewrite lookup_insert_eq. simpl.
  rewrite Hactor. simpl. by rewrite Z.eqb_refl.
Qed.

Lemma change_view_held h :
  attrs obj !! user_field self = Some (VUser h) →
  change_view self request object_id w
  = if user_id h =? user_id actor
    then (w, Ok (ChangeForm object_id true))
    else ((message_user (locked_error_msg self) ERROR w).1,
          Ok (if allow_view_permissions self
              then ChangeForm object_id false
              else HttpResponseRedirect "../../")).
Proof.
  intros Hh. unfold change_view, bind, lift. rewrite Hget.
  unfold getattr at 1. rewrite Hh. simpl.
  rewrite (is_locked_held self request obj h actor Hh Hactor).
  destruct (user_id h =? user_id actor) eqn:E; simpl.
  - rewrite (super_change_view_held h Hh). by rewrite E.
  - destruct (allow_view_permissions self); simpl; [|done].
    unfold super_change_view, bind, lift, ret. simpl. rewrite Hget. simpl.
    rewrite (is_locked_held self request obj h actor Hh Hactor). by rewrite E.
Qed.

(** C2. Opening a record for editing is the three-state step: an unheld
    record gets the actor as holder and the form is editable; a record the
    actor holds is shown editable and nothing changes; a record another
    actor holds gets the locked-error message, keeps its holder, and is
    either redirected away from or shown read-only, by
    [allow_view_permissions]. *)
Theorem change_view_three_state st :
  lock_state self actor obj = Some st →
  change_view self request object_id w
  = match st with
    | Unheld => (acquire self actor object_id w, Ok (ChangeForm object_id true))
    | HeldBySelf => (w, Ok (ChangeForm object_id true))
    | HeldByOther =>
        ((message_user (locked_error_msg self) ERROR w).1,
         Ok (if allow_view_permissions self
             then ChangeForm object_id false
             else HttpResponseRedirect "../../"))
    end
  ∧ get (table (db (acquire self actor object_id w)))
      (Filter (id_exact object_id) Objects)
    = Ok (setattr obj (user_field self) (VUser actor))
  ∧ db (message_user (locked_error_msg self) ERROR w).1 = db w
  ∧ messages (message_user (locked_error_msg self) ERROR w).1
    = messages w ++ [(ERROR, locked_error_msg self)].
Proof.
  intros Hst. split; [|split; [apply get_after_acquire|done]].
  unfold lock_state in Hst.
  destruct (attrs obj !! user_field self) as [[| | |h]|] eqn:Hh; try done.
  - injection Hst as <-. by apply change_view_unheld.
  - injection Hst as <-. rewrite (change_view_held h Hh).
    by destruct (user_id h =? user_id actor).
Qed.
End ChangeView.

(** The scenario of the shop: bob opens the unheld [R2] and becomes its
    holder; he then opens [R1], which alice holds, and is turned away. *)
Lemma change_view_three_state_witness :
  _validate_user_field (default_admin Fixtures.order_model) = Ok tt
  ∧ request_user Fixtures.as_bob = Some Fixtures.bob
  ∧ get (table (db Fixtures.world0)) (Filter (id_exact 2) Objects)
    = Ok (Fixtures.order 2 VNone "R2")
  ∧ lock_state (default_admin Fixtures.order_model) Fixtures.bob
      (Fixtures.order 2 VNone "R2") = Some Unheld
  ∧ change_view (default_admin Fixtures.order_model) Fixtures.as_bob 2 Fixtures.world0
    = (acquire (default_admin Fixtures.order_model) Fixtures.bob 2 Fixtures.world0,
       Ok (ChangeForm 2 true)).
Proof.
  do 4 (split; [reflexivity|]).
  refine (proj1 (change_view_three_state (default_admin Fixtures.order_model)
                   Fixtures.as_bob Fixtures.bob 2 (Fixtures.order 2 VNone "R2")
                   Fixtures.world0 _ _ _ Unheld _)); reflexivity.
Defined.

(** ** Querysets over a table with unique primary keys *)

Section Rows.
Context (t : list Instance).

Lemma rows_subseteq q r : r ∈ rows t q → r ∈ t.
Proof.
  revert r. induction q as [|p q IH|a IHa b IHb]; simpl; intros r Hr.
  - done.
  - apply list_elem_of_In, filter_In in Hr as [Hr _].
    by apply IH, list_elem_of_In.
  - apply elem_of_remove_dups, elem_of_app in Hr as [Hr|Hr]; auto.
Qed.

Hypothesis Hpk : NoDup (pk <$> t).

Lemma pk_inj_on_table x y : x ∈ t → y ∈ t → pk x = pk y → x = y.
Proof.
  clear -Hpk. induction t as [|a l IH]; intros Hx Hy Hxy.
  - by apply elem_of_nil in Hx.
  - rewrite fmap_cons in Hpk. apply NoDup_cons in Hpk as [Ha Hl].
    apply elem_of_cons in Hx as [->|Hx]; apply elem_of_cons in Hy as [->|Hy].
    + done.
    + exfalso. apply Ha. rewrite Hxy. by apply list_elem_of_fmap_2.
    + exfalso. apply Ha. rewrite <- Hxy. by apply list_elem_of_fmap_2.
    + by apply IH.
Qed.

Lemma filter_none (p : Instance → bool) (l : list Instance) :
  (∀ x, x ∈ l → p x = false) → List.filter p l = [].
Proof.
  induction l as [|a l IH]; intros H; [done|]. simpl.
  rewrite (H a) by apply list_elem_of_here.
  apply IH. intros x Hx. apply H. by apply list_elem_of_further.
Qed.

Lemma get_by_pk r :
  r ∈ t → get t (Filter (id_exact (pk r)) Objects) = Ok r.
Proof.
  intros Hr. unfold get. simpl.
  enough (List.filter (id_exact (pk r)) t = [r]) as -> by done.
  clear -Hpk Hr. induction t as [|a l IH]; [by apply elem_of_nil in Hr|].
  rewrite fmap_cons in Hpk. apply NoDup_cons in Hpk as [Ha Hl].
  simpl. unfold id_exact at 1.
  apply elem_of_cons in Hr as [->|Hr].
  - rewrite Z.eqb_refl. f_equal. apply filter_none. intros x Hx.
    unfold id_exact. apply Z.eqb_neq. intros E. apply Ha. rewrite <- E.
    by apply list_elem_of_fmap_2.
  - replace (pk a =? pk r) with false; [by apply IH|].
    symmetry. apply Z.eqb_neq. intros E. apply Ha. rewrite E.
    by apply list_elem_of_fmap_2.
Qed.

Lemma count_union a b :
  count t (Union a b)
  = Z.of_nat (size ((list_to_set (pk <$> rows t a) : gset Z)
                      ∪ list_to_set (pk <$> rows t b))).
Proof.
  unfold count. simpl. f_equal.
  rewrite <- (length_fmap pk).
  rewrite <- (size_list_to_set (C:=gset Z)).
  - f_equal. apply set_eq. intros k.
    rewrite elem_of_union, !elem_of_list_to_set, !list_elem_of_fmap.
    setoid_rewrite elem_of_remove_dups. setoid_rewrite elem_of_app.
    split.
    + intros (x & -> & [Hx|Hx]); [left|right]; by exists x.
    + intros [(x & -> & Hx)|(x & -> & Hx)]; exists x; auto.
  - apply NoDup_fmap_2_strong; [|apply NoDup_remove_dups].
    intros x y Hx Hy. apply pk_inj_on_table.
    + apply elem_of_remove_dups, elem_of_app in Hx as [Hx|Hx];
        by eapply rows_subseteq.
    + apply elem_of_remove_dups, elem_of_app in Hy as [Hy|Hy];
        by eapply rows_subseteq.
Qed.
End Rows.

(** ** [lock_record] *)

Section LockRecord.
Context (self : AdminLockingMixin) (request : HttpRequest) (actor : User).
Context (queryset : QuerySet) (w : World).
Hypothesis Hactor : request_user request = Some actor.
Hypothesis Hfield : is_field (model self) (user_field self) = true.

(** The run of [lock_record]: the quota message or nothing, then the one
    record of the target set or the exception of [get]; the database is
    never written. *)
Lemma lock_record_run :
  lock_record self request queryset w
  = ((if count (table (db w)) (all_records_for_user self actor queryset) >? max_records_lockable self
      then (message_user (max_records_warning_msg self) ERROR w).1
      else w),
     let? record := get (table (db w)) queryset in
     Ok (HttpResponseRedirect (_get_changeview_url self record))).
Proof.
  unfold lock_record, bind, lift, read, the_user, filter_fk.
  rewrite Hactor, Hfield. fold ((all_records_for_user self actor queryset)).
  destruct (count (table (db w)) (all_records_for_user self actor queryset) >? max_records_lockable self);
    simpl; by destruct (get (table (db w)) queryset).
Qed.

Lemma lock_record_db : db (lock_record self request queryset w).1 = db w.
Proof.
  rewrite lock_record_run. simpl.
  by destruct (count (table (db w)) (all_records_for_user self actor queryset) >? max_records_lockable self).
Qed.
End LockRecord.

Lemma shop_keys : NoDup (pk <$> table Fixtures.store0).
Proof. compute_done. Qed.

Lemma shop_keys_1 : NoDup (pk <$> table Fixtures.store1).
Proof. compute_done. Qed.

(** C5. [lock_record] reports the quota message, at level [ERROR] and with
    the configured text, exactly when the union of the target records and
    the records the actor already holds has more than
    [max_records_lockable] members. *)
Theorem lock_record_reports_quota self request actor queryset w :
  request_user request = Some actor →
  is_field (model self) (user_field self) = true →
  NoDup (pk <$> table (db w)) →
  messages (lock_record self request queryset w).1
  = messages w ++
      (if union_cardinality self actor (table (db w)) queryset
            >? max_records_lockable self
       then [(ERROR, max_records_warning_msg self)]
       else []).
Proof.
  intros Hactor Hfield Hpk.
  rewrite (lock_record_run self request actor queryset w Hactor Hfield). simpl.
  unfold all_records_for_user. rewrite (count_union _ Hpk).
  change (rows (table (db w)) (Filter (fk_exact (user_field self) (user_id actor)) Objects))
    with (held_by self actor (table (db w))).
  fold (union_cardinality self actor (table (db w)) queryset).
  destruct (union_cardinality self actor (table (db w)) queryset
              >? max_records_lockable self); simpl; [done|].
  by rewrite app_nil_r.
Qed.

(** With a quota of one and alice holding [R1], locking [R2] as well is
    reported. *)
Lemma lock_record_reports_quota_witness :
  request_user Fixtures.as_alice = Some Fixtures.alice
  ∧ max_records_lockable (default_admin Fixtures.order_model) = 1
  ∧ union_cardinality (default_admin Fixtures.order_model) Fixtures.alice
      (table Fixtures.store0) (Filter (pk_in [2]) Objects) = 2
  ∧ messages (lock_record (default_admin Fixtures.order_model) Fixtures.as_alice
                (Filter (pk_in [2]) Objects) Fixtures.world0).1
    = [(ERROR, "You can only lock upto 1 record(s)")].
Proof.
  split; [reflexivity|]. split; [reflexivity|]. split; [vm_compute; reflexivity|].
  rewrite (lock_record_reports_quota (default_admin Fixtures.order_model)
             Fixtures.as_alice Fixtures.alice (Filter (pk_in [2]) Objects)
             Fixtures.world0);
    [vm_compute; reflexivity | reflexivity | reflexivity | ].
  exact shop_keys.
Defined.

(** C4, as the claim states it, fails on the scenario of the spec: quota 2,
    alice holds [R1] and locks [R2] and [R3]. The message is reported, then
    [queryset.get()] raises [MultipleObjectsReturned]; no response is
    returned and no row has changed, [R2] is still without a holder. *)
Lemma lock_record_many_targets_aborts :
  let self := with_max_records_lockable 2 (default_admin Fixtures.order_model) in
  let out := lock_record self Fixtures.as_alice (Filter (pk_in [2; 3]) Objects)
               Fixtures.world0 in
  out.2 = Raise MultipleObjectsReturned
  ∧ messages out.1 = [(ERROR, max_records_warning_msg self)]
  ∧ table (db out.1)
    = [Fixtures.order 1 (VUser Fixtures.alice) "R1"; Fixtures.order 2 VNone "R2";
       Fixtures.order 3 VNone "R3"].
Proof. vm_compute. repeat split; reflexivity. Qed.

(** C4, amended. When the quota check fails the message is reported at level
    [ERROR] and the action carries on without writing the database: for a
    target set of exactly one record it redirects to that record's change
    view, and opening that view acquires the record for the actor if it is
    unheld. *)
Theorem lock_record_quota_exceeded_continues self request actor queryset record w :
  request_user request = Some actor →
  _validate_user_field self = Ok tt →
  NoDup (pk <$> table (db w)) →
  count (table (db w)) (all_records_for_user self actor queryset)
    > max_records_lockable self →
  rows (table (db w)) queryset = [record] →
  let out := lock_record self request queryset w in
  messages out.1 = messages w ++ [(ERROR, max_records_warning_msg self)]
  ∧ db out.1 = db w
  ∧ out.2 = Ok (HttpResponseRedirect (_get_changeview_url self record))
  ∧ (attrs record !! user_field self = Some VNone →
     change_view self request (pk record) out.1
     = (acquire self actor (pk record) out.1, Ok (ChangeForm (pk record) true))).
Proof.
  intros Hactor Hvalid Hpk Hn Hrows out.
  pose proof (validated_is_field self Hvalid) as Hfield.
  subst out. rewrite (lock_record_run self request actor queryset w Hactor Hfield).
  apply Z.gt_lt, Z.gtb_lt in Hn. rewrite Hn. simpl.
  split; [done|]. split; [done|]. split.
  - unfold get. by rewrite Hrows.
  - intros Hunheld.
    apply (change_view_unheld self request actor (pk record) record); auto.
    simpl. apply get_by_pk; [done|].
    apply (rows_subseteq _ queryset). rewrite Hrows. apply list_elem_of_here.
Qed.

(** Quota 2, alice holds [R1] and [R2] and locks [R3]: reported, redirected,
    and acquired when the change view opens. *)
Lemma lock_record_quota_exceeded_continues_witness :
  let self := with_max_records_lockable 2 (default_admin Fixtures.order_model) in
  let w := Fixtures.world_of Fixtures.store1 in
  let out := lock_record self Fixtures.as_alice (Filter (pk_in [3]) Objects) w in
  count (table (db w))
    (all_records_for_user self Fixtures.alice (Filter (pk_in [3]) Objects)) = 3
  ∧ messages out.1 = [(ERROR, "You can only lock upto 1 record(s)")]
  ∧ out.2 = Ok (HttpResponseRedirect "/admin/shop/order/3/change/").
Proof.
  intros self w out.
  split; [vm_compute; reflexivity|].
  destruct (lock_record_quota_exceeded_continues self Fixtures.as_alice
              Fixtures.alice (Filter (pk_in [3]) Objects)
              (Fixtures.order 3 VNone "R3") w)
    as (Hm & _ & Hr & _).
  - reflexivity.
  - reflexivity.
  - exact shop_keys_1.
  - vm_compute. reflexivity.
  - reflexivity.
  - split; [exact Hm | exact Hr].
Defined.

(** C10. The default warning text was fixed when the class body ran, from
    the class-level quota of one: a configuration that overrides
    [max_records_lockable] and keeps the inherited message reports a breach
    of its own quota with "upto 1 record(s)". *)
Theorem quota_message_states_class_default self request actor queryset w :
  max_records_warning_msg self = ClassBody.max_records_warning_msg →
  request_user request = Some actor →
  is_field (model self) (user_field self) = true →
  count (table (db w)) (all_records_for_user self actor queryset)
    > max_records_lockable self →
  messages (lock_record self request queryset w).1
  = messages w ++ [(ERROR, "You can only lock upto 1 record(s)")].
Proof.
  intros Hmsg Hactor Hfield Hn.
  rewrite (lock_record_run self request actor queryset w Hactor Hfield).
  apply Z.gt_lt, Z.gtb_lt in Hn. rewrite Hn. simpl. by rewrite Hmsg.
Qed.

(** Overriding the quota alone keeps the inherited text, whatever the new
    quota is. *)
Lemma override_keeps_message n m :
  max_records_warning_msg (with_max_records_lockable n (default_admin m))
  = ClassBody.max_records_warning_msg.
Proof. reflexivity. Qed.

Lemma quota_message_states_class_default_witness :
  let self := with_max_records_lockable 2 (default_admin Fixtures.order_model) in
  let w := Fixtures.world_of Fixtures.store1 in
  max_records_lockable self = 2
  ∧ count (table (db w))
      (all_records_for_user self Fixtures.alice (Filter (pk_in [3]) Objects)) = 3
  ∧ messages (lock_record self Fixtures.as_alice (Filter (pk_in [3]) Objects) w).1
    = messages w ++ [(ERROR, "You can only lock upto 1 record(s)")].
Proof.
  intros self w. split; [reflexivity|]. split; [vm_compute; reflexivity|].
  apply (quota_message_states_class_default self Fixtures.as_alice Fixtures.alice).
  - apply override_keeps_message.
  - reflexivity.
  - reflexivity.
  - vm_compute. reflexivity.
Defined.

(** ** [has_unlock_permission] *)

(** C6. With no unlock permission configured every request is granted.
    With one configured, the user row is loaded again from the store by the
    id of the request's user, and the answer is whether the permissions of
    that stored row contain ["app_label.codename_modelname"]; what the
    request's own user object carries plays no part. *)
Theorem has_unlock_permission_fresh self request s :
  (unlock_record_action_permission self = None →
   has_unlock_permission self request s = Ok true)
  ∧ ∀ p ru stored,
      unlock_record_action_permission self = Some p →
      request_user request = Some ru →
      get_user_or_404 (auth_user s) (user_id ru) = Ok stored →
      has_unlock_permission self request s
      = Ok (bool_decide (qualified_name self p ∈ user_perms stored))
      ∧ (has_unlock_permission self request s = Ok true
         ↔ qualified_name self p ∈ user_perms stored).
Proof.
  split.
  - intros Hnone. unfold has_unlock_permission. by rewrite Hnone.
  - intros p ru stored Hp Hru Hstored.
    assert (has_unlock_permission self request s
            = Ok (bool_decide (qualified_name self p ∈ user_perms stored))) as Heq.
    { unfold has_unlock_permission, the_user. rewrite Hp, Hru. simpl.
      by rewrite Hstored. }
    split; [done|]. rewrite Heq. split.
    + intros [= H]. by apply bool_decide_eq_true in H.
    + intros H. f_equal. by apply bool_decide_eq_true.
Qed.

(** bob's session still carries a user object with the unlock permission,
    but the stored row has none: refused. alice's stored row has it. *)
Lemma has_unlock_permission_fresh_witness :
  let stale_bob := mkUser 2 "bob" "" "" ["shop.unlock_order"] in
  get_user_or_404 (auth_user Fixtures.store0) 2 = Ok Fixtures.bob
  ∧ has_unlock_permission (default_admin Fixtures.order_model)
      (mkRequest (Some stale_bob)) Fixtures.store0 = Ok false
  ∧ has_unlock_permission (default_admin Fixtures.order_model)
      Fixtures.as_alice Fixtures.store0 = Ok true.
Proof.
  intros stale_bob. split; [reflexivity|]. split.
  - exact (proj1 (proj2 (has_unlock_permission_fresh
                           (default_admin Fixtures.order_model)
                           (mkRequest (Some stale_bob)) Fixtures.store0)
                    (mkPermissionType "unlock" "Can unlock a record.")
                    stale_bob Fixtures.bob eq_refl eq_refl eq_refl)).
  - exact (proj1 (proj2 (has_unlock_permission_fresh
                           (default_admin Fixtures.order_model)
                           Fixtures.as_alice Fixtures.store0)
                    (mkPermissionType "unlock" "Can unlock a record.")
                    Fixtures.alice Fixtures.alice eq_refl eq_refl eq_refl)).
Defined.

(** ** Setup *)

(** C7, as the claim states it, fails on the quota: a configuration whose
    [max_records_lockable] is zero, or negative, is set up without
    complaint. *)
Lemma init_accepts_nonpositive_quota :
  let zero := with_max_records_lockable 0 (default_admin Fixtures.order_model) in
  let minus := with_max_records_lockable (-3) (default_admin Fixtures.order_model) in
  max_records_lockable zero ≤ 0
  ∧ is_ok (__init__ zero Fixtures.world0).2 = true
  ∧ is_ok (__init__ minus Fixtures.world0).2 = true.
Proof. vm_compute. repeat split; congruence. Qed.

(** C7, amended. Setup raises [ValueError] when [user_field] names no
    attribute of the model and when it names a field whose related model is
    not [User]; it succeeds when it names a foreign key to [User]. The quota
    is not looked at: changing it never changes the outcome. *)
Theorem init_validates_user_field_only self w :
  (class_attrs (model self) !! user_field self = None →
   ∃ msg, (__init__ self w).2 = Raise (ValueError msg))
  ∧ (∀ rel, class_attrs (model self) !! user_field self = Some (AField rel) →
       rel ≠ Some UserModel →
       ∃ msg, (__init__ self w).2 = Raise (ValueError msg))
  ∧ (class_attrs (model self) !! user_field self = Some (AField (Some UserModel)) →
     is_ok (__init__ self w).2 = true)
  ∧ ∀ n, is_ok (__init__ (with_max_records_lockable n self) w).2
         = is_ok (__init__ self w).2.
Proof.
  unfold __init__, _validate_user_field. simpl. repeat split.
  - intros ->. simpl. eauto.
  - intros rel -> Hrel. rewrite bool_decide_eq_true_2 by done. simpl. eauto.
  - intros ->. by rewrite bool_decide_eq_false_2 by (intros H; by apply H).
  - intros n.
    destruct (class_attrs (model self) !! user_field self) as [[rel|]|]; [|done..].
    by destruct (bool_decide (rel ≠ Some UserModel)).
Qed.

Lemma init_validates_user_field_only_witness :
  (∃ msg, (__init__ (with_user_field "owner" (default_admin Fixtures.order_model))
             Fixtures.world0).2 = Raise (ValueError msg))
  ∧ (∃ msg, (__init__ (with_user_field "reference" (default_admin Fixtures.order_model))
               Fixtures.world0).2 = Raise (ValueError msg))
  ∧ is_ok (__init__ (default_admin Fixtures.order_model) Fixtures.world0).2 = true.
Proof.
  split; [|split].
  - apply (proj1 (init_validates_user_field_only
                    (with_user_field "owner" (default_admin Fixtures.order_model))
                    Fixtures.world0)).
    reflexivity.
  - apply (proj1 (proj2 (init_validates_user_field_only
                    (with_user_field "reference" (default_admin Fixtures.order_model))
                    Fixtures.world0)) None); [reflexivity | discriminate].
  - apply (proj1 (proj2 (proj2 (init_validates_user_field_only
                    (default_admin Fixtures.order_model) Fixtures.world0)))).
    reflexivity.
Defined.

(** ** [_set_unlock_permission] *)

Section UnlockPermission.
Context (self : AdminLockingMixin) (p : PermissionType).
Hypothesis Hp : unlock_record_action_permission self = Some p.

Lemma set_unlock_permission_step w :
  (_set_unlock_permission self w).2 = Ok tt
  ∧ auth_permission (db (_set_unlock_permission self w).1)
    = match unlock_permissions self p w with
      | [] => auth_permission (db w) ++ [(unlock_permission_row self p)]
      | _ :: _ => auth_permission (db w)
      end.
Proof.
  unfold _set_unlock_permission. rewrite Hp.
  unfold bind, read, unlock_permissions.
  destruct (List.filter _ (auth_permission (db w))) as [|x l]; simpl.
  - unfold get_for_model, create_permission.
    by destruct (bool_decide _).
  - done.
Qed.

Lemma unlock_permissions_step w :
  unlock_permissions self p (_set_unlock_permission self w).1
  = match unlock_permissions self p w with
    | [] => [(unlock_permission_row self p)]
    | l => l
    end.
Proof.
  unfold unlock_permissions at 1.
  rewrite (proj2 (set_unlock_permission_step w)).
  destruct (unlock_permissions self p w) as [|x l] eqn:E; [|done].
  rewrite List.filter_app. fold (unlock_permissions self p w). rewrite E. simpl.
  unfold codename_is. simpl. by rewrite String.eqb_refl.
Qed.

Lemma times_set_unlock_permission n : ∀ w,
  (times n (_set_unlock_permission self) w).2 = Ok tt
  ∧ unlock_permissions self p (times n (_set_unlock_permission self) w).1
    = match n, unlock_permissions self p w with
      | S _, [] => [(unlock_permission_row self p)]
      | _, l => l
      end.
Proof.
  induction n as [|n IH]; intros w; [done|].
  simpl. unfold bind.
  destruct (_set_unlock_permission self w) as [w1 r] eqn:E.
  pose proof (set_unlock_permission_step w) as [Hr _].
  pose proof (unlock_permissions_step w) as Hs.
  rewrite E in Hr, Hs. simpl in Hr, Hs. subst r.
  destruct (IH w1) as [IHr IHs]. split; [done|].
  rewrite IHs, Hs.
  destruct n, (unlock_permissions self p w); done.
Qed.

(** C8. Calling [_set_unlock_permission] any number of times in a row
    never fails and never leaves more than one permission row with the
    codename of the unlock permission, provided there was at most one to
    begin with; when there was none, the first call creates it with the
    configured description and the later calls add nothing. *)
Theorem set_unlock_permission_idempotent n w :
  (length (unlock_permissions self p w) ≤ 1)%nat →
  let out := times n (_set_unlock_permission self) w in
  out.2 = Ok tt
  ∧ (length (unlock_permissions self p out.1) ≤ 1)%nat
  ∧ (unlock_permissions self p w = [] → (0 < n)%nat →
     unlock_permissions self p out.1 = [(unlock_permission_row self p)]
     ∧ unlock_permissions self p (_set_unlock_permission self w).1
       = [(unlock_permission_row self p)]).
Proof.
  intros Hle out. subst out.
  destruct (times_set_unlock_permission n w) as [Hr Hs].
  split; [done|]. rewrite Hs. split.
  - destruct n, (unlock_permissions self p w); simpl in *; lia.
  - intros Hnone Hn. rewrite unlock_permissions_step, Hnone.
    destruct n; [lia|done].
Qed.
End UnlockPermission.

Lemma set_unlock_permission_idempotent_witness :
  let self := default_admin Fixtures.order_model in
  let p := mkPermissionType "unlock" "Can unlock a record." in
  let out := times 3 (_set_unlock_permission self) Fixtures.world0 in
  unlock_permissions self p Fixtures.world0 = []
  ∧ out.2 = Ok tt
  ∧ auth_permission (db out.1)
    = [mkPermission "unlock_order" "Can unlock a record."
         (mkContentType "shop" "order")].
Proof.
  intros self p out. split; [reflexivity|].
  destruct (set_unlock_permission_idempotent self p eq_refl 3 Fixtures.world0)
    as (Hr & _ & _).
  - simpl. lia.
  - split; [exact Hr | vm_compute; reflexivity].
Defined.

(** ** Frames *)

#[local] Instance same_but_refl f : Reflexive (same_but f).
Proof. by intros r. Qed.

#[local] Instance same_but_trans f : Transitive (same_but f).
Proof.
  intros r1 r2 r3 [Hk Ha] [Hk' Ha']. split; [congruence|].
  intros g Hg. by rewrite Ha', Ha.
Qed.

Section Frames.
Context {A B : Type}.

Lemma reads_only_ret (a : A) : reads_only (ret a).
Proof. by intros w. Qed.

Lemma reads_only_raise e : reads_only (raise (A:=A) e).
Proof. by intros w. Qed.

Lemma reads_only_query (g : World → result A) : reads_only (λ w, (w, g w)).
Proof. by intros w. Qed.

Lemma reads_only_lift (r : result A) : reads_only (lift r).
Proof. by intros w. Qed.

Lemma reads_only_read (g : World → A) : reads_only (read g).
Proof. by intros w. Qed.

Lemma reads_only_bind (c : M A) (k : A → M B) :
  reads_only c → (∀ a, reads_only (k a)) → reads_only (bind c k).
Proof.
  intros Hc Hk w. unfold bind. specialize (Hc w).
  destruct (c w) as [w1 [a|e]]; simpl in *; [|done].
  by rewrite Hk.
Qed.

Lemma writes_only_bind f (c : M A) (k : A → M B) :
  writes_only f c → (∀ a, writes_only f (k a)) → writes_only f (bind c k).
Proof.
  intros Hc Hk w. unfold bind. specialize (Hc w).
  destruct (c w) as [w1 [a|e]]; simpl in *; [|done].
  etrans; [exact Hc|apply Hk].
Qed.

Lemma reads_only_writes_only f (c : M A) : reads_only c → writes_only f c.
Proof. intros Hc w. by rewrite Hc. Qed.
End Frames.

Lemma reads_only_message_user msg lv : reads_only (message_user msg lv).
Proof. by intros w. Qed.

Lemma reads_only_log_warning line : reads_only (log_warning line).
Proof. by intros w. Qed.

Lemma reads_only_set_message_seen b : reads_only (set_message_seen b).
Proof. by intros w. Qed.

Lemma write_column_same_but f v k r : same_but f r (write_column f v k r).
Proof.
  unfold write_column. destruct (pk r =? k); [|done].
  split; [done|]. intros g Hg. simpl. by rewrite lookup_insert_ne.
Qed.

Lemma writes_only_save m obj f : writes_only f (save m obj f).
Proof.
  intros w. unfold save. destruct (is_field m f); [|done].
  unfold bind, lift. destruct (getattr obj f) as [v|e]; [|done].
  destruct (existsb (id_exact (pk obj)) (table (db w))); [|done]. simpl.
  induction (table (db w)) as [|r t IH]; constructor; [|done].
  apply write_column_same_but.
Qed.

Ltac frame :=
  repeat first
    [ apply reads_only_ret | apply reads_only_raise | apply reads_only_lift
    | apply reads_only_read | apply reads_only_query
    | apply reads_only_message_user | apply reads_only_log_warning
    | apply reads_only_set_message_seen
    | apply reads_only_bind; [|intros ?]
    | match goal with
      | |- reads_only (if ?b then _ else _) => destruct b
      | |- reads_only (match ?x with _ => _ end) => destruct x
      end ].


Lemma is_locked_by_reads_only self obj : reads_only (is_locked_by self obj).
Proof. unfold is_locked_by. frame. Qed.

Lemma changelist_view_reads_only self request :
  reads_only (changelist_view self request).
Proof. unfold changelist_view. frame. Qed.



(** [unlock_record] writes at most the attribute named ["user"], which is
    the holder field only when [user_field] was not overridden. *)
Lemma unlock_each_writes_only self objs : writes_only "user" (unlock_each self objs).
Proof.
  induction objs as [|obj objs IH]; simpl.
  - apply reads_only_writes_only, reads_only_ret.
  - apply writes_only_bind; [apply writes_only_save|by intros _].
Qed.

Lemma unlock_record_writes_only self request queryset :
  writes_only "user" (unlock_record self request queryset).
Proof.
  unfold unlock_record.
  apply writes_only_bind; [apply reads_only_writes_only; frame|intros objs].
  apply writes_only_bind; [apply unlock_each_writes_only|intros _].
  apply reads_only_writes_only. frame.
Qed.

(** ** [unlock_record] *)

Section UnlockRecord.
Context (self : AdminLockingMixin) (request : HttpRequest).
Hypothesis Huser : is_field (model self) "user" = true.

Lemma with_table_id w : with_table (table (db w)) w = w.
Proof. by destruct w as [[] ? ? ? ? ? ?]. Qed.

Lemma existsb_id_map f v k k' t :
  existsb (id_exact k') (map (write_column f v k) t) = existsb (id_exact k') t.
Proof.
  induction t as [|r t IH]; [done|]. simpl. rewrite IH. f_equal.
  unfold write_column, id_exact. by destruct (pk r =? k).
Qed.

Lemma save_cleared obj w :
  existsb (id_exact (pk obj)) (table (db w)) = true →
  save (model self) (setattr obj "user" VNone) "user" w
  = (with_table (map (write_column "user" VNone (pk obj)) (table (db w))) w, Ok tt).
Proof.
  intros Hex. unfold save. rewrite Huser. unfold bind, lift, getattr. simpl.
  rewrite lookup_insert_eq. by rewrite Hex.
Qed.

Lemma clear_after_write k sel r :
  clear_selected sel (write_column "user" VNone k r) = clear_selected (k :: sel) r.
Proof.
  unfold clear_selected, write_column.
  destruct (Z.eqb_spec (pk r) k) as [->|Hne]; simpl.
  - rewrite (bool_decide_eq_true_2 (k ∈ k :: sel)) by apply list_elem_of_here.
    case_bool_decide; [|done].
    unfold setattr. simpl. by rewrite insert_insert_eq.
  - rewrite (bool_decide_ext (pk r ∈ k :: sel) (pk r ∈ sel)); [done|].
    rewrite elem_of_cons. split; [intros [?|?]; done|auto].
Qed.

Lemma unlock_each_run objs : ∀ w,
  (∀ o, o ∈ objs → existsb (id_exact (pk o)) (table (db w)) = true) →
  unlock_each self objs w
  = (with_table (map (clear_selected (pk <$> objs)) (table (db w))) w, Ok tt).
Proof.
  induction objs as [|obj objs IH]; intros w Hex.
  - simpl. unfold ret. f_equal.
    rewrite (map_ext _ id), map_id; [by rewrite with_table_id|].
    intros r. unfold clear_selected. rewrite bool_decide_eq_false_2; [done|].
    apply not_elem_of_nil.
  - simpl. unfold bind.
    rewrite save_cleared by apply Hex, list_elem_of_here.
    rewrite IH.
    + f_equal. unfold with_table. simpl. rewrite map_map.
      rewrite (map_ext _ (clear_selected (pk obj :: (pk <$> objs))))
        by (intros r; apply clear_after_write).
      done.
    + intros o Ho. simpl. rewrite existsb_id_map.
      by apply Hex, list_elem_of_further.
Qed.
Lemma clear_selected_rows sel t :
  map (clear_selected (pk <$> List.filter (pk_in sel) t)) t
  = map (clear_selected sel) t.
Proof.
  apply map_ext_in. intros r Hr. unfold clear_selected.
  rewrite (bool_decide_ext (pk r ∈ pk <$> List.filter (pk_in sel) t) (pk r ∈ sel));
    [done|].
  rewrite list_elem_of_fmap. split.
  - intros (o & -> & Ho). apply list_elem_of_In, filter_In in Ho as [_ Ho].
    by apply bool_decide_eq_true in Ho.
  - intros Hsel. exists r. split; [done|].
    apply list_elem_of_In, filter_In. split; [done|].
    by apply bool_decide_eq_true.
Qed.

(** The run of [unlock_record] on the rows an admin action selected, for a
    model that has a field [user]: that field is cleared on every selected
    row, whether it was set or not; then the references are read again and
    joined, and the run ends with the success message or with the exception
    of the column lookup or of [join]. *)
Lemma unlock_record_run sel w :
  let w1 := with_table (map (clear_selected sel) (table (db w))) w in
  unlock_record self request (Filter (pk_in sel) Objects) w
  = match (let? refs := values_list (model self) (table (db w1))
                          (Filter (pk_in sel) Objects) (model_reference_key self) in
           join ", " refs) with
    | Ok str =>
        ((message_user ("Successfully unlocked the following records: " +:+ str)
            SUCCESS w1).1, Ok tt)
    | Raise e => (w1, Raise e)
    end.
Proof.
  intros w1. unfold unlock_record, bind, read, lift. simpl.
  rewrite unlock_each_run.
  - rewrite clear_selected_rows. fold w1.
    destruct (values_list _ _ _ _) as [refs|e]; simpl; [|done].
    by destruct (join ", " refs).
  - intros o Ho. apply existsb_exists. exists o.
    apply list_elem_of_In, filter_In in Ho as [Ho _]. split; [done|].
    unfold id_exact. apply Z.eqb_refl.
Qed.

Lemma unlock_record_clears sel w :
  table (db (unlock_record self request (Filter (pk_in sel) Objects) w).1)
  = map (clear_selected sel) (table (db w)).
Proof.
  rewrite unlock_record_run. simpl.
  destruct (values_list _ _ _ _) as [refs|e]; simpl; [|done].
  by destruct (join ", " refs).
Qed.
End UnlockRecord.

(** C3. The claim asks [unlock_record] to succeed always, to clear the
    configured holder field and to report the references. Two runs that do
    not: with nothing overridden, the references of [Order] are integer
    primary keys and [", ".join] raises [TypeError] after the holder was
    cleared, so nothing is reported; with [user_field = "locked_by"] on a
    model that has no field [user], the loop still assigns and saves the
    attribute [user], and [save] raises [ValueError] with the holder left in
    place, although setup accepted the configuration. *)
Theorem unlock_record_raises :
  let out := unlock_record (default_admin Fixtures.order_model) Fixtures.as_bob
               (Filter (pk_in [1]) Objects) Fixtures.world0 in
  let out' := unlock_record Fixtures.parcel_admin Fixtures.as_bob
                (Filter (pk_in [5]) Objects) Fixtures.depot0 in
  (out.2 = Raise TypeError
   ∧ messages out.1 = []
   ∧ table (db out.1)
     = [Fixtures.order 1 VNone "R1"; Fixtures.order 2 VNone "R2";
        Fixtures.order 3 VNone "R3"])
  ∧ (is_ok (__init__ Fixtures.parcel_admin Fixtures.depot0).2 = true
     ∧ (∃ msg, out'.2 = Raise (ValueError msg))
     ∧ messages out'.1 = []
     ∧ table (db out'.1) = [Fixtures.parcel 5 (VUser Fixtures.alice) "P5"]).
Proof.
  vm_compute. repeat split; try reflexivity. eexists. reflexivity.
Qed.

(** C9. The claim asks that the holder field be the only record state that
    is ever written. On a model that keeps its owner in [user] and its lock
    in [locked_by], with [user_field = "locked_by"], unlocking ticket 7
    succeeds, wipes the owner and leaves the holder where it was: the loop
    writes the column [user], not the configured one. *)
Theorem unlock_record_writes_user_column :
  let out := unlock_record Fixtures.ticket_admin Fixtures.as_alice
               (Filter (pk_in [7]) Objects) Fixtures.desk0 in
  is_ok (__init__ Fixtures.ticket_admin Fixtures.desk0).2 = true
  ∧ out.2 = Ok tt
  ∧ messages out.1 = [(SUCCESS, "Successfully unlocked the following records: T7")]
  ∧ table (db Fixtures.desk0)
    = [Fixtures.ticket 7 (VUser Fixtures.alice) (VUser Fixtures.bob) "T7"]
  ∧ table (db out.1) = [Fixtures.ticket 7 VNone (VUser Fixtures.bob) "T7"].
Proof. vm_compute. repeat split; reflexivity. Qed.

(** ** The shop, run *)

(** bob opens the unheld [R2] and holds it; alice is then turned away from
    it with the error message, and [R2] still belongs to bob. *)
Example shop_first_come :
  let self := default_admin Fixtures.order_model in
  let after_bob := change_view self Fixtures.as_bob 2 Fixtures.world0 in
  let after_alice := change_view self Fixtures.as_alice 2 after_bob.1 in
  after_bob.2 = Ok (ChangeForm 2 true)
  ∧ after_alice.2 = Ok (HttpResponseRedirect "../../")
  ∧ messages after_alice.1
    = [(ERROR, "This record is locked. Please try again later.")]
  ∧ table (db after_alice.1)
    = [Fixtures.order 1 (VUser Fixtures.alice) "R1";
       Fixtures.order 2 (VUser Fixtures.bob) "R2"; Fixtures.order 3 VNone "R3"].
Proof. vm_compute. repeat split; reflexivity. Qed.

(** With string references and the holder kept in [user], unlocking reports
    the references and clears the holder, also of a row that had none. *)
Example shop_unlock :
  let self := with_model_reference_key "reference" (default_admin Fixtures.order_model) in
  let out := unlock_record self Fixtures.as_bob (Filter (pk_in [1; 2]) Objects)
               Fixtures.world0 in
  out.2 = Ok tt
  ∧ messages out.1
    = [(SUCCESS, "Successfully unlocked the following records: R1, R2")]
  ∧ table (db out.1)
    = [Fixtures.order 1 VNone "R1"; Fixtures.order 2 VNone "R2";
       Fixtures.order 3 VNone "R3"].
Proof. vm_compute. repeat split; reflexivity. Qed.

(** The column of the holder: a dash, the full name, or the username with a
    line in the log. *)
Example shop_locked_by :
  let self := default_admin Fixtures.order_model in
  (is_locked_by self (Fixtures.order 2 VNone "R2") Fixtures.world0).2 = Ok "-"
  ∧ (is_locked_by self (Fixtures.order 1 (VUser Fixtures.alice) "R1")
       Fixtures.world0).2 = Ok "Alice Archer"
  ∧ (is_locked_by self (Fixtures.order 3 (VUser Fixtures.bob) "R3")
       Fixtures.world0).2 = Ok "bob"
  ∧ length (log (is_locked_by self (Fixtures.order 3 (VUser Fixtures.bob) "R3")
                   Fixtures.world0).1) = 1%nat.
Proof. vm_compute. repeat split; reflexivity. Qed.

(** ** Registration of the column and the actions in [__init__] *)

Lemma register_elem x t : x ∈ register x t.
Proof.
  unfold register. destruct t as [|y t]; [apply list_elem_of_here|].
  case_bool_decide; [done|]. apply elem_of_app. right. apply list_elem_of_here.
Qed.

Lemma register_prefix x t : t `prefix_of` register x t.
Proof.
  unfold register. destruct t as [|y t]; [apply prefix_nil|].
  case_bool_decide; [done|]. by apply prefix_app_r.
Qed.

Lemma register_in x t : x ∈ t → register x t = t.
Proof.
  intros Hx. unfold register. destruct t as [|y t]; [by apply elem_of_nil in Hx|].
  by rewrite bool_decide_eq_true_2.
Qed.

Lemma register_NoDup x t : NoDup t → NoDup (register x t).
Proof.
  intros Ht. unfold register. destruct t as [|y t].
  - apply NoDup_singleton.
  - case_bool_decide as Hx; [done|].
    apply NoDup_app. split; [done|]. split; [|apply NoDup_singleton].
    intros z Hz Hz'. apply list_elem_of_singleton in Hz' as ->. by apply Hx.
Qed.

Lemma init_columns self w self' :
  (__init__ self w).2 = Ok self' →
  self' = with_columns (register LOCKED_BY_COLUMN (list_display self))
            (register LOCK_RECORD (register UNLOCK_RECORD (actions self))) self.
Proof.
  unfold __init__. simpl.
  destruct (_validate_user_field _) as [[]|e]; simpl; [|done]. by intros [= <-].
Qed.

(** X1. A set-up admin shows the locked-by column and offers both actions;
    what the subclass had listed stays in front, in its order, and nothing
    that was listed once is listed twice. *)
Theorem init_registers self w self' :
  (__init__ self w).2 = Ok self' →
  (LOCKED_BY_COLUMN ∈ list_display self'
   ∧ UNLOCK_RECORD ∈ actions self' ∧ LOCK_RECORD ∈ actions self')
  ∧ (list_display self `prefix_of` list_display self'
     ∧ actions self `prefix_of` actions self')
  ∧ ((NoDup (list_display self) → NoDup (list_display self'))
     ∧ (NoDup (actions self) → NoDup (actions self'))).
Proof.
  intros H. apply init_columns in H as ->. simpl. repeat split.
  - apply register_elem.
  - eapply elem_of_prefix; [apply register_elem|apply register_prefix].
  - apply register_elem.
  - apply register_prefix.
  - etrans; apply register_prefix.
  - apply register_NoDup.
  - intros. by do 2 apply register_NoDup.
Qed.

Lemma init_registers_witness :
  ∃ self', (__init__ (default_admin Fixtures.order_model) Fixtures.world0).2 = Ok self'
    ∧ list_display self' = ["__str__"; "is_locked_by"]
    ∧ actions self' = ["unlock_record"; "lock_record"]
    ∧ LOCKED_BY_COLUMN ∈ list_display self'.
Proof.
  eexists. split; [reflexivity|]. split; [reflexivity|]. split; [reflexivity|].
  refine (proj1 (proj1 (init_registers (default_admin Fixtures.order_model)
                          Fixtures.world0 _ _))).
  reflexivity.
Defined.

(** X2. Setting an admin up again changes nothing: the instance that came
    out of [__init__] comes out of it unchanged, in whatever world it is
    run. *)
Theorem init_idempotent self w self' w' :
  (__init__ self w).2 = Ok self' →
  (__init__ self' w').2 = Ok self'.
Proof.
  intros H. pose proof (init_columns _ _ _ H) as ->.
  unfold __init__ in *. simpl in *.
  destruct (_validate_user_field _) as [[]|e] eqn:Hv; simpl in *; [|done].
  unfold _validate_user_field in *. simpl in *.
  destruct (class_attrs (model self) !! user_field self) as [[rel|]|]; [|done..].
  destruct (bool_decide (rel ≠ Some UserModel)); [done|]. simpl.
  f_equal. unfold with_columns. simpl.
  rewrite (register_in LOCKED_BY_COLUMN) by apply register_elem.
  rewrite (register_in UNLOCK_RECORD (register LOCK_RECORD _)).
  - by rewrite (register_in LOCK_RECORD) by apply register_elem.
  - eapply elem_of_prefix; [apply register_elem|apply register_prefix].
Qed.

Lemma init_idempotent_witness :
  ∃ self', (__init__ (default_admin Fixtures.order_model) Fixtures.world0).2 = Ok self'
    ∧ (__init__ self' Fixtures.desk0).2 = Ok self'.
Proof.
  eexists. split; [reflexivity|].
  apply (init_idempotent (default_admin Fixtures.order_model) Fixtures.world0).
  reflexivity.
Defined.

(** ** What [change_view] writes *)


Section ChangeViewRuns.
Context (self : AdminLockingMixin) (request : HttpRequest) (object_id : Z).
Context (w : World).





End ChangeViewRuns.



(** ** Opening a record twice *)

(** X4. Once an actor has opened an unheld record, a second opening is
    decided by the first: the same actor is let in again and nothing changes;
    any other actor gets the error message and is redirected, or shown the
    read-only form when viewing is allowed, and the first actor stays the
    holder. *)
Theorem change_view_first_wins self first second a b object_id obj w :
  _validate_user_field self = Ok tt →
  request_user first = Some a →
  request_user second = Some b →
  get (table (db w)) (Filter (id_exact object_id) Objects) = Ok obj →
  attrs obj !! user_field self = Some VNone →
  let w1 := (change_view self first object_id w).1 in
  get (table (db w1)) (Filter (id_exact object_id) Objects)
  = Ok (setattr obj (user_field self) (VUser a))
  ∧ change_view self second object_id w1
    = if user_id a =? user_id b
      then (w1, Ok (ChangeForm object_id true))
      else ((message_user (locked_error_msg self) ERROR w1).1,
            Ok (if allow_view_permissions self
                then ChangeForm object_id false
                else HttpResponseRedirect "../../")).
Proof.
  intros Hvalid Ha Hb Hget Hunheld w1. subst w1.
  rewrite (change_view_unheld self first a object_id obj w Hvalid Ha Hget Hunheld).
  simpl.
  pose proof (get_after_acquire self a object_id obj w Hget) as Hget1.
  split; [done|].
  apply (change_view_held self second b object_id _ _ Hb Hget1).
  simpl. apply lookup_insert_eq.
Qed.

Lemma change_view_first_wins_witness :
  let self := default_admin Fixtures.order_model in
  let w1 := (change_view self Fixtures.as_bob 2 Fixtures.world0).1 in
  attrs (Fixtures.order 2 VNone "R2") !! user_field self = Some VNone
  ∧ (change_view self Fixtures.as_alice 2 w1).2
    = Ok (HttpResponseRedirect "../../").
Proof.
  intros self w1. split; [reflexivity|].
  pose proof (change_view_first_wins self Fixtures.as_bob Fixtures.as_alice
                Fixtures.bob Fixtures.alice 2 (Fixtures.order 2 VNone "R2")
                Fixtures.world0 eq_refl eq_refl eq_refl eq_refl eq_refl) as [_ H].
  exact (f_equal snd H).
Defined.

(** ** How many records an actor holds *)

Lemma held_after_write f a k t :
  (∀ r, r ∈ t → pk r = k → attrs r !! f = Some VNone) →
  length (List.filter (fk_exact f (user_id a)) (map (write_column f (VUser a) k) t))
  = (length (List.filter (fk_exact f (user_id a)) t)
     + length (List.filter (id_exact k) t))%nat.
Proof.
  induction t as [|r t IH]; intros Hun; [done|].
  assert (∀ r, r ∈ t → pk r = k → attrs r !! f = Some VNone) as Hun'.
  { intros r' Hr'. apply Hun. by apply list_elem_of_further. }
  specialize (IH Hun'). clear Hun'. simpl.
  assert (fk_exact f (user_id a) (write_column f (VUser a) k r)
          = fk_exact f (user_id a) r || id_exact k r
          ∧ fk_exact f (user_id a) r && id_exact k r = false) as [Hw Hx].
  { unfold write_column, id_exact.
    destruct (Z.eqb_spec (pk r) k) as [Hk|Hk].
    - pose proof (Hun r (list_elem_of_here _ _) Hk) as Hr.
      unfold fk_exact. simpl. by rewrite lookup_insert_eq, Z.eqb_refl, Hr.
    - by rewrite orb_false_r, andb_false_r. }
  rewrite Hw.
  destruct (fk_exact f (user_id a) r), (id_exact k r); simpl in *;
    try discriminate; rewrite IH; lia.
Qed.

(** X5. Opening an unheld record adds exactly one to the number of records
    the actor holds; [max_records_lockable] is not consulted on this
    path. *)
Theorem change_view_holds_one_more self request a object_id obj w :
  _validate_user_field self = Ok tt →
  request_user request = Some a →
  get (table (db w)) (Filter (id_exact object_id) Objects) = Ok obj →
  attrs obj !! user_field self = Some VNone →
  length (held_by self a (table (db (change_view self request object_id w).1)))
  = S (length (held_by self a (table (db w)))).
Proof.
  intros Hvalid Ha Hget Hunheld.
  rewrite (change_view_unheld self request a object_id obj w Hvalid Ha Hget Hunheld).
  unfold held_by, acquire. simpl. rewrite held_after_write.
  - rewrite (get_id_rows _ _ _ Hget). simpl. lia.
  - intros r Hr Hk.
    assert (In r (List.filter (id_exact object_id) (table (db w)))) as Hin.
    { apply filter_In. split; [by apply list_elem_of_In|].
      unfold id_exact. by apply Z.eqb_eq. }
    rewrite (get_id_rows _ _ _ Hget) in Hin. by destruct Hin as [<-|[]].
Qed.

(** With a quota of one and [R1] held, alice opens [R2] and holds two. *)
Lemma change_view_holds_one_more_witness :
  let self := default_admin Fixtures.order_model in
  max_records_lockable self = 1
  ∧ length (held_by self Fixtures.alice (table (db Fixtures.world0))) = 1%nat
  ∧ length (held_by self Fixtures.alice
              (table (db (change_view self Fixtures.as_alice 2 Fixtures.world0).1)))
    = 2%nat.
Proof.
  intros self. split; [reflexivity|]. split; [reflexivity|].
  apply (change_view_holds_one_more self Fixtures.as_alice Fixtures.alice 2
           (Fixtures.order 2 VNone "R2") Fixtures.world0); reflexivity.
Defined.

(** ** More on [lock_record] *)

(** X6. The lock action locks nothing by itself: whatever request and
    selection it is given and however it ends, the world it leaves is the
    one it found, or that world with the one quota message added. *)
Theorem lock_record_only_reports self request queryset w :
  (lock_record self request queryset w).1 = w
  ∨ (lock_record self request queryset w).1
    = (message_user (max_records_warning_msg self) ERROR w).1.
Proof.
  unfold lock_record, bind, lift, read, the_user.
  destruct (request_user request) as [ru|]; [|by left].
  destruct (filter_fk _ _ _) as [held|e]; [|by left].
  destruct (count _ _ >? max_records_lockable self); simpl.
  - right. by destruct (get _ _).
  - left. by destruct (get _ _).
Qed.

(** X7. For a logged-in user and a validated holder field, the lock action
    returns a response exactly when one record is selected, and the response
    is the redirect to the change view of that record; the quota has no say
    in it. *)
Theorem lock_record_one_target self request actor queryset w :
  request_user request = Some actor →
  is_field (model self) (user_field self) = true →
  (is_ok (lock_record self request queryset w).2 = true
   ↔ ∃ record, rows (table (db w)) queryset = [record])
  ∧ ∀ record, rows (table (db w)) queryset = [record] →
      (lock_record self request queryset w).2
      = Ok (HttpResponseRedirect (_get_changeview_url self record)).
Proof.
  intros Hactor Hfield.
  rewrite (lock_record_run self request actor queryset w Hactor Hfield). simpl.
  unfold get. split.
  - destruct (rows (table (db w)) queryset) as [|r [|r' l]]; simpl; split;
      try done; try (intros [? [=]]). by exists r.
  - by intros record ->.
Qed.

Lemma lock_record_one_target_witness :
  (lock_record (default_admin Fixtures.order_model) Fixtures.as_bob
     (Filter (pk_in [3]) Objects) Fixtures.world0).2
  = Ok (HttpResponseRedirect "/admin/shop/order/3/change/")
  ∧ ¬ ∃ record, rows (table (db Fixtures.world0)) (Filter (pk_in [4]) Objects)
                = [record].
Proof.
  pose proof (lock_record_one_target (default_admin Fixtures.order_model)
                Fixtures.as_bob Fixtures.bob) as H.
  split.
  - apply (proj2 (H (Filter (pk_in [3]) Objects) Fixtures.world0 eq_refl eq_refl)
             (Fixtures.order 3 VNone "R3")).
    reflexivity.
  - intros Hex.
    apply (proj1 (H (Filter (pk_in [4]) Objects) Fixtures.world0 eq_refl eq_refl))
      in Hex.
    discriminate Hex.
Defined.

Lemma held_keys_NoDup self actor t :
  NoDup (pk <$> t) → NoDup (pk <$> held_by self actor t).
Proof.
  intros Hpk. apply NoDup_fmap_2_strong.
  - intros x y Hx Hy. apply (pk_inj_on_table t Hpk).
    + by apply list_elem_of_In, filter_In in Hx as [Hx _]; apply list_elem_of_In.
    + by apply list_elem_of_In, filter_In in Hy as [Hy _]; apply list_elem_of_In.
  - unfold held_by. apply NoDup_ListNoDup, List.NoDup_filter, NoDup_ListNoDup.
    by apply NoDup_fmap_1 in Hpk.
Qed.

(** X8. Selecting records the user already holds does not count them
    twice: when every selected row is held by the user, the number checked
    against the quota is the number of records the user holds, so no message
    is reported as long as that number is within the quota. *)
Theorem lock_record_held_counted_once self request actor queryset w :
  request_user request = Some actor →
  is_field (model self) (user_field self) = true →
  NoDup (pk <$> table (db w)) →
  (∀ r, r ∈ rows (table (db w)) queryset →
        fk_exact (user_field self) (user_id actor) r = true) →
  count (table (db w)) (all_records_for_user self actor queryset)
  = Z.of_nat (length (held_by self actor (table (db w))))
  ∧ (Z.of_nat (length (held_by self actor (table (db w))))
       ≤ max_records_lockable self →
     (lock_record self request queryset w).1 = w).
Proof.
  intros Hactor Hfield Hpk Hheld.
  assert (count (table (db w)) (all_records_for_user self actor queryset)
          = Z.of_nat (length (held_by self actor (table (db w))))) as Hcount.
  { unfold all_records_for_user. rewrite (count_union _ Hpk). f_equal.
    change (rows (table (db w))
              (Filter (fk_exact (user_field self) (user_id actor)) Objects))
      with (held_by self actor (table (db w))).
    rewrite <- (length_fmap pk (held_by self actor (table (db w)))).
    rewrite <- (size_list_to_set (C:=gset Z)) by by apply held_keys_NoDup.
    f_equal. apply subseteq_union_1_L. intros k.
    rewrite !elem_of_list_to_set, !list_elem_of_fmap.
    intros (r & -> & Hr). exists r. split; [done|].
    apply list_elem_of_In, filter_In. split.
    - by apply list_elem_of_In, (rows_subseteq _ queryset).
    - by apply Hheld. }
  split; [done|]. intros Hle.
  rewrite (lock_record_run self request actor queryset w Hactor Hfield). simpl.
  rewrite Hcount. rewrite Z.gtb_ltb.
  by replace (_ <? _) with false by (symmetry; apply Z.ltb_ge; lia).
Qed.

(** alice holds [R1], the quota is one, and she selects [R1] again. *)
Lemma lock_record_held_counted_once_witness :
  let self := default_admin Fixtures.order_model in
  let out := lock_record self Fixtures.as_alice (Filter (pk_in [1]) Objects)
               Fixtures.world0 in
  count (table (db Fixtures.world0))
    (all_records_for_user self Fixtures.alice (Filter (pk_in [1]) Objects)) = 1
  ∧ out.1 = Fixtures.world0.
Proof.
  intros self out.
  destruct (lock_record_held_counted_once self Fixtures.as_alice Fixtures.alice
              (Filter (pk_in [1]) Objects) Fixtures.world0 eq_refl eq_refl
              shop_keys) as [Hc Hw].
  - intros r Hr. apply list_elem_of_In in Hr. simpl in Hr.
    destruct Hr as [<-|[]]. reflexivity.
  - split; [exact Hc|]. apply Hw. vm_compute. discriminate.
Defined.

(** ** More on [unlock_record] *)

(** X9. Whatever the configuration, the selection and the outcome,
    unlocking keeps every row in its place with its primary key and with
    every attribute other than [user] as it was. *)
Theorem unlock_record_frame self request queryset w i r :
  table (db w) !! i = Some r →
  ∃ r', table (db (unlock_record self request queryset w).1) !! i = Some r'
        ∧ pk r' = pk r
        ∧ ∀ g, g ≠ "user" → attrs r' !! g = attrs r !! g.
Proof.
  intros Hi.
  pose proof (unlock_record_writes_only self request queryset w) as Hf.
  destruct (Forall2_lookup_l _ _ _ _ _ Hf Hi) as (r' & Hr' & Hpk & Hattrs).
  by exists r'.
Qed.

Lemma unlock_record_frame_witness :
  ∃ r', table (db (unlock_record Fixtures.ticket_admin Fixtures.as_alice
                     (Filter (pk_in [7]) Objects) Fixtures.desk0).1) !! 0%nat
        = Some r'
        ∧ attrs r' !! "locked_by" = Some (VUser Fixtures.bob).
Proof.
  destruct (unlock_record_frame Fixtures.ticket_admin Fixtures.as_alice
              (Filter (pk_in [7]) Objects) Fixtures.desk0 0%nat
              (Fixtures.ticket 7 (VUser Fixtures.alice) (VUser Fixtures.bob) "T7")
              eq_refl) as (r' & Hr' & _ & Hattrs).
  exists r'. split; [exact Hr'|]. by rewrite Hattrs.
Defined.

Lemma clear_selected_idem sel r :
  clear_selected sel (clear_selected sel r) = clear_selected sel r.
Proof.
  unfold clear_selected. destruct (decide (pk r ∈ sel)) as [Hsel|Hsel].
  - rewrite (bool_decide_eq_true_2 (pk r ∈ sel)) by done. simpl.
    rewrite (bool_decide_eq_true_2 (pk r ∈ sel)) by done.
    unfold setattr. simpl. by rewrite insert_insert_eq.
  - rewrite (bool_decide_eq_false_2 (pk r ∈ sel)) by done.
    by rewrite (bool_decide_eq_false_2 (pk r ∈ sel)) by done.
Qed.

Lemma filter_cleared sel t :
  List.filter (pk_in sel) (map (clear_selected sel) t)
  = map (clear_selected sel) (List.filter (pk_in sel) t).
Proof.
  induction t as [|r t IH]; [done|]. simpl.
  assert (pk_in sel (clear_selected sel r) = pk_in sel r) as ->.
  { assert (pk (clear_selected sel r) = pk r) as Hpk
      by (unfold clear_selected; by destruct (bool_decide _)).
    unfold pk_in. by rewrite Hpk. }
  destruct (pk_in sel r); simpl; by rewrite IH.
Qed.

(** X10. On a model with a field [user], unlocking the selected rows sets
    that field to [None] on exactly those rows, whether or not the report
    afterwards succeeds, and unlocking the same selection again leaves the
    table as the first run left it. *)
Theorem unlock_record_idempotent self request sel w :
  is_field (model self) "user" = true →
  let unlock := unlock_record self request (Filter (pk_in sel) Objects) in
  table (db (unlock w).1) = map (clear_selected sel) (table (db w))
  ∧ table (db (unlock (unlock w).1).1) = table (db (unlock w).1).
Proof.
  intros Huser unlock. subst unlock.
  rewrite !(unlock_record_clears self request Huser).
  split; [done|]. rewrite map_map. apply map_ext, clear_selected_idem.
Qed.

Lemma unlock_record_idempotent_witness :
  let unlock := unlock_record (default_admin Fixtures.order_model) Fixtures.as_bob
                  (Filter (pk_in [1; 2]) Objects) in
  table (db (unlock Fixtures.world0).1)
  = [Fixtures.order 1 VNone "R1"; Fixtures.order 2 VNone "R2";
     Fixtures.order 3 VNone "R3"]
  ∧ table (db (unlock (unlock Fixtures.world0).1).1)
    = table (db (unlock Fixtures.world0).1).
Proof.
  intros unlock.
  destruct (unlock_record_idempotent (default_admin Fixtures.order_model)
              Fixtures.as_bob [1; 2] Fixtures.world0 eq_refl) as [H1 H2].
  split; [|exact H2]. fold unlock in H1. rewrite H1. vm_compute. reflexivity.
Defined.

Lemma mapM_pk m l : mapM (column m "pk") l = Ok (map (λ r, VInt (pk r)) l).
Proof. induction l as [|r l IH]; [done|]. simpl. by rewrite IH. Qed.

(** X11. With the reference key left at ["pk"], on a model with a field
    [user], unlocking a selection that matches at least one row clears the
    holders and then raises [TypeError] while joining the integer keys; no
    success message is added. *)
Theorem unlock_record_pk_reference_raises self request sel w r :
  is_field (model self) "user" = true →
  model_reference_key self = "pk" →
  r ∈ table (db w) →
  pk r ∈ sel →
  unlock_record self request (Filter (pk_in sel) Objects) w
  = (with_table (map (clear_selected sel) (table (db w))) w, Raise TypeError).
Proof.
  intros Huser Hkey Hr Hsel.
  rewrite (unlock_record_run self request Huser). simpl.
  unfold values_list. rewrite Hkey, mapM_pk. simpl. rewrite filter_cleared.
  assert (r ∈ List.filter (pk_in sel) (table (db w))) as Hin.
  { apply list_elem_of_In, filter_In. split; [by apply list_elem_of_In|].
    by apply bool_decide_eq_true. }
  destruct (List.filter (pk_in sel) (table (db w))) as [|x l];
    [by apply elem_of_nil in Hin|done].
Qed.

Lemma unlock_record_pk_reference_raises_witness :
  (unlock_record (default_admin Fixtures.order_model) Fixtures.as_bob
     (Filter (pk_in [2]) Objects) Fixtures.world0).2 = Raise TypeError.
Proof.
  rewrite (unlock_record_pk_reference_raises (default_admin Fixtures.order_model)
             Fixtures.as_bob [2] Fixtures.world0 (Fixtures.order 2 VNone "R2")).
  - reflexivity.
  - reflexivity.
  - reflexivity.
  - apply list_elem_of_further, list_elem_of_here.
  - apply list_elem_of_here.
Defined.

Lemma pk_clear_selected sel r : pk (clear_selected sel r) = pk r.
Proof. unfold clear_selected. by destruct (bool_decide _). Qed.

Lemma keys_cleared sel t : pk <$> map (clear_selected sel) t = pk <$> t.
Proof.
  induction t as [|r t IH]; [done|]. simpl.
  rewrite pk_clear_selected. f_equal. apply IH.
Qed.

(** X12. Release, then acquire: with the holder kept in [user] and unique
    primary keys, once a record was among those unlocked, whoever opens it
    next gets the editable form and becomes its holder, whoever held it
    before and whether or not the unlock action could report. *)
Theorem unlock_then_open self unlocker opener b sel r w :
  _validate_user_field self = Ok tt →
  user_field self = "user" →
  NoDup (pk <$> table (db w)) →
  r ∈ table (db w) →
  pk r ∈ sel →
  request_user opener = Some b →
  let w1 := (unlock_record self unlocker (Filter (pk_in sel) Objects) w).1 in
  let out := change_view self opener (pk r) w1 in
  out.2 = Ok (ChangeForm (pk r) true)
  ∧ ∃ obj, get (table (db out.1)) (Filter (id_exact (pk r)) Objects) = Ok obj
           ∧ attrs obj !! "user" = Some (VUser b).
Proof.
  intros Hvalid Hfield Hpk Hr Hsel Hb w1 out.
  assert (is_field (model self) "user" = true) as Huser
    by (rewrite <- Hfield; by apply validated_is_field).
  assert (table (db w1) = map (clear_selected sel) (table (db w))) as Ht1
    by apply (unlock_record_clears self unlocker Huser).
  assert (get (table (db w1)) (Filter (id_exact (pk r)) Objects)
          = Ok (clear_selected sel r)) as Hget.
  { rewrite Ht1, <- (pk_clear_selected sel r). apply get_by_pk.
    - by rewrite keys_cleared.
    - apply list_elem_of_In, in_map. by apply list_elem_of_In. }
  assert (attrs (clear_selected sel r) !! user_field self = Some VNone) as Hunheld.
  { rewrite Hfield. unfold clear_selected. rewrite bool_decide_eq_true_2 by done.
    simpl. apply lookup_insert_eq. }
  subst out.
  rewrite (change_view_unheld self opener b (pk r) _ w1 Hvalid Hb Hget Hunheld).
  split; [done|]. simpl.
  exists (setattr (clear_selected sel r) (user_field self) (VUser b)). split.
  - apply (get_after_acquire self b (pk r) _ w1 Hget).
  - rewrite Hfield. simpl. apply lookup_insert_eq.
Qed.

(** alice holds [R1]; it is unlocked (the report fails on the integer keys)
    and bob opens it. *)
Lemma unlock_then_open_witness :
  let self := default_admin Fixtures.order_model in
  let w1 := (unlock_record self Fixtures.as_alice (Filter (pk_in [1]) Objects)
               Fixtures.world0).1 in
  (change_view self Fixtures.as_bob 1 w1).2 = Ok (ChangeForm 1 true).
Proof.
  intros self w1.
  apply (unlock_then_open self Fixtures.as_alice Fixtures.as_bob Fixtures.bob [1]
           (Fixtures.order 1 (VUser Fixtures.alice) "R1") Fixtures.world0).
  - reflexivity.
  - reflexivity.
  - exact shop_keys.
  - apply list_elem_of_here.
  - apply list_elem_of_here.
  - reflexivity.
Defined.





(** ** More on the unlock permission *)

(** X14. Bootstrapping the unlock permission only ever appends to the
    permission table: the rows that were there stay in front, the model's
    table, the users and the messages are untouched, and the unlock action is
    tied to the configured codename. With no permission configured nothing
    happens at all. *)
Theorem set_unlock_permission_appends self w :
  (unlock_record_action_permission self = None →
   _set_unlock_permission self w = (w, Ok tt))
  ∧ ∀ p, unlock_record_action_permission self = Some p →
      let w' := (_set_unlock_permission self w).1 in
      auth_permission (db w) `prefix_of` auth_permission (db w')
      ∧ table (db w') = table (db w)
      ∧ auth_user (db w') = auth_user (db w)
      ∧ messages w' = messages w
      ∧ unlock_allowed_permissions w' = Some [codename p].
Proof.
  split.
  - intros Hnone. unfold _set_unlock_permission. by rewrite Hnone.
  - intros p Hp w'. subst w'. unfold _set_unlock_permission. rewrite Hp.
    unfold bind, read.
    destruct (length _ =? 0)%nat; simpl; [|done].
    unfold get_for_model, create_permission.
    destruct (bool_decide _); simpl; repeat split; by apply prefix_app_r.
Qed.

Lemma set_unlock_permission_appends_witness :
  let w' := (_set_unlock_permission (default_admin Fixtures.order_model)
               Fixtures.world0).1 in
  unlock_record_action_permission (default_admin Fixtures.order_model)
  = Some (mkPermissionType "unlock" "Can unlock a record.")
  ∧ table (db w') = table (db Fixtures.world0)
  ∧ unlock_allowed_permissions w' = Some ["unlock"].
Proof.
  intros w'. split; [reflexivity|].
  destruct (proj2 (set_unlock_permission_appends
                     (default_admin Fixtures.order_model) Fixtures.world0)
              (mkPermissionType "unlock" "Can unlock a record.") eq_refl)
    as (_ & Ht & _ & _ & Ha).
  split; [exact Ht | exact Ha].
Defined.

Lemma set_unlock_permission_users self w :
  auth_user (db (_set_unlock_permission self w).1) = auth_user (db w).
Proof.
  unfold _set_unlock_permission.
  destruct (unlock_record_action_permission self) as [p|]; [|done].
  unfold bind, read. destruct (length _ =? 0)%nat; simpl; [|done].
  unfold get_for_model, create_permission. by destruct (bool_decide _).
Qed.

(** X15. With an unlock permission configured and the request's user
    stored, [get_model_perms] returns the inherited permissions with one
    entry set, under the configured codename, to whether the stored user has
    the permission; every other entry is as it was, and the permission row
    exists afterwards. *)
Theorem get_model_perms_adds_unlock self request ru stored p perms w :
  unlock_record_action_permission self = Some p →
  request_user request = Some ru →
  get_user_or_404 (auth_user (db w)) (user_id ru) = Ok stored →
  let out := get_model_perms self request perms w in
  out.2 = Ok (<[codename p := has_perm stored (qualified_name self p)]> perms)
  ∧ (∀ perms', out.2 = Ok perms' →
       ∀ k, k ≠ codename p → perms' !! k = perms !! k)
  ∧ unlock_permissions self p out.1 ≠ [].
Proof.
  intros Hp Hru Hstored out.
  pose proof (set_unlock_permission_users self w) as Husers.
  pose proof (set_unlock_permission_step self p Hp w) as [Hok _].
  pose proof (unlock_permissions_step self p Hp w) as Hrows.
  assert (out = ((_set_unlock_permission self w).1,
                 Ok (<[codename p := has_perm stored (qualified_name self p)]> perms)))
    as ->.
  { subst out. unfold get_model_perms. rewrite Hp. unfold bind.
    destruct (_set_unlock_permission self w) as [w1 r]. simpl in *. subst r.
    unfold has_unlock_permission, the_user. rewrite Hp, Hru. simpl.
    by rewrite Husers, Hstored. }
  simpl. split; [done|]. split.
  - intros perms' [= <-] k Hk. by apply lookup_insert_ne.
  - rewrite Hrows. by destruct (unlock_permissions self p w).
Qed.

Lemma get_model_perms_adds_unlock_witness :
  let perms : gmap string bool := <["change" := true]> ∅ in
  (get_model_perms (default_admin Fixtures.order_model) Fixtures.as_alice perms
     Fixtures.world0).2
  = Ok (<["unlock" := true]> perms).
Proof.
  intros perms.
  apply (proj1 (get_model_perms_adds_unlock (default_admin Fixtures.order_model)
                  Fixtures.as_alice Fixtures.alice Fixtures.alice
                  (mkPermissionType "unlock" "Can unlock a record.") perms
                  Fixtures.world0 eq_refl eq_refl eq_refl)).
Defined.

Lemma no_user_with_id users n :
  (∀ u, u ∈ users → user_id u ≠ n) →
  List.filter (λ u, user_id u =? n) users = [].
Proof.
  induction users as [|u users IH]; intros H; [done|]. simpl.
  replace (user_id u =? n) with false
    by (symmetry; apply Z.eqb_neq, H, list_elem_of_here).
  apply IH. intros u' Hu'. by apply H, list_elem_of_further.
Qed.

(** X16. With an unlock permission configured, the check fails instead of
    answering when the request's user cannot be loaded: [Http404] when no
    stored user has its id, [AttributeError] when the request carries no
    user. *)
Theorem has_unlock_permission_errors self request p s :
  unlock_record_action_permission self = Some p →
  (request_user request = None →
   has_unlock_permission self request s = Raise AttributeError)
  ∧ ∀ ru, request_user request = Some ru →
      (∀ u, u ∈ auth_user s → user_id u ≠ user_id ru) →
      has_unlock_permission self request s = Raise Http404.
Proof.
  intros Hp. unfold has_unlock_permission, the_user. rewrite Hp. split.
  - by intros ->.
  - intros ru -> Hnone. simpl. unfold get_user_or_404.
    by rewrite (no_user_with_id _ _ Hnone).
Qed.

Lemma has_unlock_permission_errors_witness :
  has_unlock_permission (default_admin Fixtures.order_model)
    (mkRequest (Some (mkUser 9 "carol" "" "" []))) Fixtures.store0
  = Raise Http404.
Proof.
  apply (proj2 (has_unlock_permission_errors (default_admin Fixtures.order_model)
                  (mkRequest (Some (mkUser 9 "carol" "" "" []))) _ Fixtures.store0
                  eq_refl)
           (mkUser 9 "carol" "" "" []) eq_refl).
  intros u Hu. apply list_elem_of_In in Hu. simpl in Hu.
  destruct Hu as [<-|[<-|[]]]; discriminate.
Defined.

(** ** [changelist_view] *)




(** ** [is_locked_by] and [has_change_permission] *)

(** X18. The locked-by column never fails on a row whose holder is [None]
    or a user and never writes the database: it shows a dash for no holder,
    the username, with one line added to the log, when the holder has neither
    first nor last name, and otherwise first and last name around one space,
    also when one of the two is empty. *)
Theorem is_locked_by_display self obj w :
  (attrs obj !! user_field self = Some VNone →
   is_locked_by self obj w = (w, Ok "-"))
  ∧ ∀ u, attrs obj !! user_field self = Some (VUser u) →
      let out := is_locked_by self obj w in
      db out.1 = db w
      ∧ (first_name u = "" → last_name u = "" →
         out.2 = Ok (username u) ∧ length (log out.1) = S (length (log w)))
      ∧ (first_name u ≠ "" ∨ last_name u ≠ "" →
         out = (w, Ok (first_name u +:+ " " +:+ last_name u))).
Proof.
  split.
  - intros H. unfold is_locked_by, bind, lift, getattr. by rewrite H.
  - intros u H out. subst out. split; [apply is_locked_by_reads_only|].
    unfold is_locked_by, bind, lift, getattr. rewrite H. simpl. split.
    + intros -> ->. simpl. split; [done|]. rewrite length_app. simpl. lia.
    + intros Hname.
      destruct (String.eqb_spec (first_name u) ""), (String.eqb_spec (last_name u) "");
        simpl; try done. by destruct Hname.
Qed.

Lemma is_locked_by_display_witness :
  let self := default_admin Fixtures.order_model in
  is_locked_by self (Fixtures.order 1 (VUser Fixtures.alice) "R1") Fixtures.world0
  = (Fixtures.world0, Ok "Alice Archer")
  ∧ (is_locked_by self (Fixtures.order 3 (VUser Fixtures.bob) "R3") Fixtures.world0).2
    = Ok "bob".
Proof.
  intros self. split.
  - apply (proj2 (is_locked_by_display self
                    (Fixtures.order 1 (VUser Fixtures.alice) "R1") Fixtures.world0)
             Fixtures.alice eq_refl).
    left. discriminate.
  - apply (proj2 (is_locked_by_display self
                    (Fixtures.order 3 (VUser Fixtures.bob) "R3") Fixtures.world0)
             Fixtures.bob eq_refl); reflexivity.
Defined.

(** X19. Changing is permitted without an object, and on a record that has
    a holder exactly when the holder is the request's user; it is what the
    form of the change view is rendered with. *)
Theorem has_change_permission_holder self request a obj h w :
  request_user request = Some a →
  get (table (db w)) (Filter (id_exact (pk obj)) Objects) = Ok obj →
  attrs obj !! user_field self = Some (VUser h) →
  has_change_permission self request None = Ok true
  ∧ has_change_permission self request (Some obj) = Ok (user_id h =? user_id a)
  ∧ (has_change_permission self request (Some obj) = Ok true
     ↔ user_id h = user_id a)
  ∧ ∃ w', change_view self request (pk obj) w
          = (w', Ok (if (user_id h =? user_id a) || allow_view_permissions self
                     then ChangeForm (pk obj) (user_id h =? user_id a)
                     else HttpResponseRedirect "../../")).
Proof.
  intros Ha Hget Hh.
  assert (has_change_permission self request (Some obj)
          = Ok (user_id h =? user_id a)) as Hperm.
  { unfold has_change_permission.
    rewrite (is_locked_held self request obj h a Hh Ha). simpl.
    by rewrite negb_involutive. }
  split; [done|]. split; [done|]. split.
  - rewrite Hperm. split.
    + intros [= H]. by apply Z.eqb_eq.
    + intros H. f_equal. by apply Z.eqb_eq.
  - rewrite (change_view_held self request a (pk obj) obj w Ha Hget h Hh).
    destruct (user_id h =? user_id a); simpl; [by eexists|].
    destruct (allow_view_permissions self); by eexists.
Qed.

Lemma has_change_permission_holder_witness :
  has_change_permission (default_admin Fixtures.order_model) Fixtures.as_bob
    (Some (Fixtures.order 1 (VUser Fixtures.alice) "R1")) = Ok false
  ∧ has_change_permission (default_admin Fixtures.order_model) Fixtures.as_alice
      (Some (Fixtures.order 1 (VUser Fixtures.alice) "R1")) = Ok true.
Proof.
  split.
  - apply (proj1 (proj2 (has_change_permission_holder
                           (default_admin Fixtures.order_model) Fixtures.as_bob
                           Fixtures.bob (Fixtures.order 1 (VUser Fixtures.alice) "R1")
                           Fixtures.alice Fixtures.world0 eq_refl eq_refl eq_refl))).
  - apply (proj1 (proj2 (has_change_permission_holder
                           (default_admin Fixtures.order_model) Fixtures.as_alice
                           Fixtures.alice (Fixtures.order 1 (VUser Fixtures.alice) "R1")
                           Fixtures.alice Fixtures.world0 eq_refl eq_refl eq_refl))).
Defined.

(** ** [_validate_user_field] *)

(** X20. The holder field passes validation exactly when it names a field
    of the model whose related model is [User]; a class attribute that is not
    a field at all is refused with [AttributeError], not with the
    [ValueError] of the other two refusals. *)
Theorem validate_user_field_iff self :
  (_validate_user_field self = Ok tt
   ↔ class_attrs (model self) !! user_field self = Some (AField (Some UserModel)))
  ∧ (class_attrs (model self) !! user_field self = Some AOther →
     _validate_user_field self = Raise AttributeError).
Proof.
  unfold _validate_user_field.
  destruct (class_attrs (model self) !! user_field self) as [[rel|]|]; simpl.
  - destruct (decide (rel = Some UserModel)) as [->|Hne].
    + rewrite bool_decide_eq_false_2 by (intros H; by apply H). by split.
    + rewrite bool_decide_eq_true_2 by done. split; [|done].
      split; [done|]. by intros [= ->].
  - split; [by split|done].
  - split; [by split|done].
Qed.

Lemma validate_user_field_iff_witness :
  _validate_user_field (with_user_field "objects" (default_admin Fixtures.order_model))
  = Raise AttributeError.
Proof.
  apply (proj2 (validate_user_field_iff
                  (with_user_field "objects" (default_admin Fixtures.order_model)))).
  reflexivity.
Defined.

(** ** The rows of the table *)



